(** * SchoolPositioning front end: intake form, orchestrator, report
      renderer and PDF exporter.

    Shallow embedding of the four modules of the front end ([App],
    [components/UserForm], [components/AnalysisReport], [services/api]),
    with the properties of the specification stated over it.

    JavaScript values are modelled by [jsval]; numbers are exact rationals
    (plus NaN), objects are finite maps from property names to values. *)

From Stdlib Require Import QArith Qround Lqa Sorted.
From stdpp Require Import gmap strings pretty list fin_maps.

Local Open Scope string_scope.
Local Open Scope list_scope.

Set Warnings "-register-all".

(** ** JavaScript values *)

Inductive jsval : Type :=
  | JUndefined
  | JNull
  | JBool (b : bool)
  | JNum (q : Q)
  | JNaN
  | JStr (s : string)
  | JArr (l : list jsval)
  | JObj (o : gmap string jsval).

(** ToBoolean: what [if (v)], [v && w], [v || w] and [!v] look at. *)
Definition truthy (v : jsval) : bool :=
  match v with
  | JUndefined | JNull | JNaN => false
  | JBool b => b
  | JNum q => negb (Qeq_bool q 0)
  | JStr s => negb (String.eqb s "")
  | JArr _ | JObj _ => true
  end.

(** [a || b] *)
Definition js_or (a b : jsval) : jsval := if truthy a then a else b.

(** [o.k] on an object: a missing property reads as [undefined]. *)
Definition prop (o : gmap string jsval) (k : string) : jsval :=
  default JUndefined (o !! k).

(** An input left empty: nothing there, [null] (a cleared InputNumber or
    Select) or the empty string. *)
Definition is_empty (v : jsval) : bool :=
  match v with
  | JUndefined | JNull => true
  | JStr s => String.eqb s ""
  | _ => false
  end.

(** [undefined] and [null], the two values without properties. *)
Definition nullish (v : jsval) : bool :=
  match v with JUndefined | JNull => true | _ => false end.

Definition is_array (v : jsval) : bool :=
  match v with JArr _ => true | _ => false end.

Definition is_string (v : jsval) : bool :=
  match v with JStr _ => true | _ => false end.

(** ** UserForm *)

Module UserForm.

(** [formData.k = v] *)
Definition assign (k : string) (v : jsval) (o : gmap string jsval)
  : gmap string jsval := <[k := v]> o.

(** The object literal that opens [handleSubmit]. *)
Definition formData0 (values : gmap string jsval) : gmap string jsval :=
  list_to_map
    [ ("undergraduate_university", prop values "undergraduate_university");
      ("undergraduate_major", prop values "undergraduate_major");
      ("gpa", prop values "gpa");
      ("gpa_scale", prop values "gpa_scale");
      ("graduation_year", prop values "graduation_year");
      ("target_countries", prop values "target_countries");
      ("target_majors", prop values "target_majors");
      ("target_degree_type", prop values "target_degree_type");
      ("research_experiences",
        js_or (prop values "research_experiences") (JArr []));
      ("internship_experiences",
        js_or (prop values "internship_experiences") (JArr []));
      ("other_experiences",
        js_or (prop values "other_experiences") (JArr [])) ].

Definition addLanguage (hasLanguageScore : bool) (values : gmap string jsval)
    (formData : gmap string jsval) : gmap string jsval :=
  if hasLanguageScore && truthy (prop values "language_test_type")
       && truthy (prop values "language_total_score")
  then
    assign "language_writing" (prop values "language_writing")
      (assign "language_speaking" (prop values "language_speaking")
        (assign "language_listening" (prop values "language_listening")
          (assign "language_reading" (prop values "language_reading")
            (assign "language_total_score" (prop values "language_total_score")
              (assign "language_test_type" (prop values "language_test_type")
                formData)))))
  else formData.

Definition addGRE (hasGRE : bool) (values : gmap string jsval)
    (formData : gmap string jsval) : gmap string jsval :=
  if hasGRE && truthy (prop values "gre_total")
  then
    assign "gre_writing" (prop values "gre_writing")
      (assign "gre_quantitative" (prop values "gre_quantitative")
        (assign "gre_verbal" (prop values "gre_verbal")
          (assign "gre_total" (prop values "gre_total") formData)))
  else formData.

Definition addGMAT (hasGMAT : bool) (values : gmap string jsval)
    (formData : gmap string jsval) : gmap string jsval :=
  if hasGMAT && truthy (prop values "gmat_total")
  then assign "gmat_total" (prop values "gmat_total") formData
  else formData.

(** [handleSubmit]: the Profile handed to [onSubmit], given the three
    toggles of the component state and the values of the form. *)
Definition handleSubmit (hasLanguageScore hasGRE hasGMAT : bool)
    (values : gmap string jsval) : gmap string jsval :=
  addGMAT hasGMAT values
    (addGRE hasGRE values
      (addLanguage hasLanguageScore values (formData0 values))).

(** The [name]s of the [Form.Item]s that the JSX of the form renders,
    section by section; the three optional rows are rendered only while
    their toggle is on. *)
Definition academic_fields : list string :=
  [ "undergraduate_university"; "undergraduate_major";
    "gpa"; "gpa_scale"; "graduation_year" ].

Definition language_fields : list string :=
  [ "language_test_type"; "language_total_score"; "language_reading";
    "language_listening"; "language_speaking"; "language_writing" ].

Definition gre_inputs : list string := [ "gre_total"; "gre_writing" ].

Definition gmat_inputs : list string := [ "gmat_total" ].

Definition target_fields : list string :=
  [ "target_countries"; "target_majors"; "target_degree_type" ].

Definition experience_fields : list string :=
  [ "research_experiences"; "internship_experiences"; "other_experiences" ].

Definition rendered_fields (hasLanguageScore hasGRE hasGMAT : bool)
  : list string :=
  academic_fields
  ++ (if hasLanguageScore then language_fields else [])
  ++ (if hasGRE then gre_inputs else [])
  ++ (if hasGMAT then gmat_inputs else [])
  ++ target_fields ++ experience_fields.

(** The values a form can hand to [handleSubmit]: [onFinish] receives the
    values of the rendered [Form.Item]s and no others. *)
Definition from_form (hasLanguageScore hasGRE hasGMAT : bool)
    (values : gmap string jsval) : Prop :=
  dom values ⊆@{gset string}
    list_to_set (rendered_fields hasLanguageScore hasGRE hasGMAT).

(** The properties of the Profile that [handleSubmit] writes for the
    Test-A block (the optional [gre_*] members of [UserBackground]). *)
Definition gre_fields : list string :=
  [ "gre_total"; "gre_verbal"; "gre_quantitative"; "gre_writing" ].

Definition gmat_fields : list string := [ "gmat_total" ].

(** A filled form with the GRE row open: 320 in total, 4.0 in writing. *)
Definition gre_submission : gmap string jsval :=
  list_to_map
    [ ("undergraduate_university", JStr "浙江大学");
      ("undergraduate_major", JStr "软件工程");
      ("gpa", JNum 3.8);
      ("gpa_scale", JStr "4.0");
      ("graduation_year", JNum 2025);
      ("gre_total", JNum 320);
      ("gre_writing", JNum 4);
      ("target_countries", JArr [JStr "美国"]);
      ("target_majors", JArr [JStr "计算机科学"]);
      ("target_degree_type", JStr "Master") ].

(** The same form with the language row open and filled. *)
Definition language_submission : gmap string jsval :=
  <["language_test_type" := JStr "TOEFL"]>
    (<["language_total_score" := JNum 105]>
      (<["language_reading" := JNum 28]> gre_submission)).

(** The properties that the object literal of [handleSubmit] writes. *)
Definition base_fields : list string :=
  academic_fields ++ target_fields ++ experience_fields.

(** The tests that guard the three optional blocks of [handleSubmit]. *)
Definition language_included (hasLanguageScore : bool)
    (values : gmap string jsval) : bool :=
  hasLanguageScore && truthy (prop values "language_test_type")
    && truthy (prop values "language_total_score").

Definition gre_included (hasGRE : bool) (values : gmap string jsval) : bool :=
  hasGRE && truthy (prop values "gre_total").

Definition gmat_included (hasGMAT : bool) (values : gmap string jsval)
  : bool :=
  hasGMAT && truthy (prop values "gmat_total").

(** The years that the graduation-year Select offers,
    [Array.from({ length: 10 }, (_, i) => fullYear + i - 5)], where
    [fullYear] is what [new Date().getFullYear()] returns. *)
Definition graduation_years (fullYear : Z) : list Z :=
  (fun i : nat => (fullYear + Z.of_nat i - 5)%Z) <$> seq 0 10.

(** The same form with one research project entered. *)
Definition research_submission : gmap string jsval :=
  <["research_experiences" :=
      JArr [JObj (list_to_map
              [ ("name", JStr "图像分割");
                ("role", JStr "核心成员");
                ("description", JStr "医学影像分割模型") ])]]>
    gre_submission.

End UserForm.


(** ** services/api: the shape of the analysis report *)

Module Api.

Record CompetitivenessAnalysis := {
  strengths : string;
  weaknesses : string;
  summary : string }.

Record SchoolRecommendation := {
  university : string;
  program : string;
  reason : string }.

Record SchoolRecommendations := {
  reach : list SchoolRecommendation;
  target : list SchoolRecommendation;
  safety : list SchoolRecommendation;
  case_insights : string }.

Record CaseComparison := {
  cmp_gpa : string;
  cmp_university : string;
  cmp_experience : string }.

Record CaseAnalysis := {
  case_id : Z;
  admitted_university : string;
  admitted_program : string;
  gpa : string;
  language_score : string;
  language_test_type : option string;
  key_experiences : option string;
  undergraduate_info : string;
  comparison : CaseComparison;
  success_factors : string;
  takeaways : string }.

Record ActionPlan := {
  timeframe : string;
  action : string;
  goal : string }.

Record BackgroundImprovement := {
  action_plan : list ActionPlan;
  strategy_summary : string }.

(** [background_improvement : BackgroundImprovement | null] *)
Record AnalysisReport := {
  competitiveness : CompetitivenessAnalysis;
  school_recommendations : SchoolRecommendations;
  similar_cases : list CaseAnalysis;
  background_improvement : option BackgroundImprovement }.

(** The requests of [apiService]: verb, path under the base URL, and body.
    [getCaseDetails] writes its id into the path; ids are integers, written
    in decimal. *)
Inductive Method := GET | POST.

Record Request := {
  method : Method;
  url : string;
  body : option (gmap string jsval) }.

Definition healthCheck : Request :=
  {| method := GET; url := "/health"; body := None |}.

Definition getStats : Request :=
  {| method := GET; url := "/api/stats"; body := None |}.

Definition getUniversities : Request :=
  {| method := GET; url := "/api/universities"; body := None |}.

Definition getMajors : Request :=
  {| method := GET; url := "/api/majors"; body := None |}.

Definition analyzeUserBackground (userBackground : gmap string jsval)
  : Request :=
  {| method := POST; url := "/api/analyze"; body := Some userBackground |}.

Definition getCaseDetails (caseId : Z) : Request :=
  {| method := GET; url := "/api/cases/" +:+ pretty caseId; body := None |}.

Definition refreshData : Request :=
  {| method := POST; url := "/api/refresh-data"; body := None |}.

(** A small report without an improvement block. *)
Definition sample_report : AnalysisReport :=
  {| competitiveness :=
       {| strengths := "GPA"; weaknesses := "GRE"; summary := "OK" |};
     school_recommendations :=
       {| reach := [ {| university := "CMU"; program := "MSCS";
                        reason := "research" |} ];
          target := [];
          safety := [];
          case_insights := "" |};
     similar_cases := [];
     background_improvement := None |}.

End Api.

(** ** App: the orchestrator *)

Module App.

Inductive Step := form | report.

(** The three [useState] cells of [App]. *)
Record State := {
  currentStep : Step;
  analysisReport : option Api.AnalysisReport;
  loading : bool }.

(** What [message.success] / [message.error] were called with. *)
Inductive Toast :=
  | success (content : jsval)
  | error (content : jsval).

(** The component state together with the toasts shown so far, oldest
    first. *)
Record World := {
  state : State;
  toasts : list Toast }.

Definition initial : World :=
  {| state := {| currentStep := form; analysisReport := None;
                 loading := false |};
     toasts := [] |}.

Definition setCurrentStep (s : Step) (w : World) : World :=
  {| state := {| currentStep := s;
                 analysisReport := analysisReport (state w);
                 loading := loading (state w) |};
     toasts := toasts w |}.

Definition setAnalysisReport (r : option Api.AnalysisReport) (w : World)
  : World :=
  {| state := {| currentStep := currentStep (state w);
                 analysisReport := r;
                 loading := loading (state w) |};
     toasts := toasts w |}.

Definition setLoading (b : bool) (w : World) : World :=
  {| state := {| currentStep := currentStep (state w);
                 analysisReport := analysisReport (state w);
                 loading := b |};
     toasts := toasts w |}.

Definition message (t : Toast) (w : World) : World :=
  {| state := state w; toasts := toasts w ++ [t] |}.

(** [x.k] for any value [x]: reading a property of [undefined] or [null]
    throws a TypeError ([None]); the primitives and arrays have none of the
    properties read here. *)
Definition get (x : jsval) (k : string) : option jsval :=
  match x with
  | JUndefined | JNull => None
  | JObj o => Some (prop o k)
  | _ => Some JUndefined
  end.

(** [x?.k] *)
Definition get_opt (x : jsval) (k : string) : jsval :=
  match x with
  | JObj o => prop o k
  | _ => JUndefined
  end.

Definition fallback : string := "分析失败，请稍后重试".

(** The body of the [catch] block up to the call of [message.error]:
    [None] when evaluating it throws. *)
Definition errorMessage (err : jsval) : option jsval :=
  match get err "response" with
  | None => None
  | Some response =>
      let detail := get_opt (get_opt response "data") "detail" in
      if truthy detail then Some detail
      else
        match get err "message" with
        | None => None
        | Some m => if truthy m then Some m else Some (JStr fallback)
        end
  end.

(** [handleFormSubmit] up to its [await]. *)
Definition submit_begin (w : World) : World := setLoading true w.

(** [handleFormSubmit] from the [await] on, given how
    [apiService.analyzeUserBackground] settled: rejected with a value, or
    resolved with a report. *)
Definition submit_end (outcome : jsval + Api.AnalysisReport) (w : World)
  : World :=
  let w1 :=
    match outcome with
    | inr r =>
        message (success (JStr "分析完成！"))
          (setCurrentStep report (setAnalysisReport (Some r) w))
    | inl err =>
        match errorMessage err with
        | Some m => message (error m) w
        | None => w
        end
    end in
  setLoading false w1.

Definition handleFormSubmit (outcome : jsval + Api.AnalysisReport)
    (w : World) : World :=
  submit_end outcome (submit_begin w).

Definition handleBackToForm (w : World) : World :=
  setAnalysisReport None (setCurrentStep form w).

(** Which child the JSX of [App] mounts inside the spinner. *)
Inductive View :=
  | ShowForm (disabled : bool)
  | ShowReport (r : Api.AnalysisReport)
  | ShowNothing.

Definition view (s : State) : View :=
  match currentStep s, analysisReport s with
  | form, _ => ShowForm (loading s)
  | report, Some r => ShowReport r
  | report, None => ShowNothing
  end.

(** The user and the network as the JSX wires them: the submit button
    belongs to the form and is disabled while loading, the back button
    belongs to the report, and a pending call settles once. *)
Inductive step : World -> World -> Prop :=
  | step_submit w :
      view (state w) = ShowForm false ->
      step w (submit_begin w)
  | step_settle w outcome :
      loading (state w) = true ->
      step w (submit_end outcome w)
  | step_back w r :
      view (state w) = ShowReport r ->
      step w (handleBackToForm w).

(** A rejected call as axios reports it: the server answered 429 with a
    [detail]. *)
Definition quota_error : jsval :=
  JObj (list_to_map
    [ ("message", JStr "Request failed with status code 429");
      ("response",
        JObj (list_to_map
          [ ("status", JNum 429);
            ("data", JObj (list_to_map
               [("detail", JStr "quota exceeded")])) ])) ]).

(** A call that got no answer. *)
Definition timeout_error : jsval :=
  JObj (list_to_map
    [ ("message", JStr "timeout of 300000ms exceeded");
      ("code", JStr "ECONNABORTED") ]).

Inductive reachable : World -> Prop :=
  | reach_init : reachable initial
  | reach_step w w' : reachable w -> step w w' -> reachable w'.

(** What holds in every state the application can be in: the form never
    sits on a stored report, a call is pending only on the form, and the
    report view has its report and no pending call. *)
Definition consistent (w : World) : Prop :=
  match currentStep (state w) with
  | form => analysisReport (state w) = None
  | report => is_Some (analysisReport (state w)) /\ loading (state w) = false
  end.

End App.

(** ** AnalysisReport: the report view and its PDF export *)

Module AnalysisReport.

Import Api.

(** *** The rendered tree *)

Record Dataset := {
  label : string;
  data : list Q;
  backgroundColor : string;
  borderColor : string;
  borderWidth : Q;
  pointBackgroundColor : string }.

Record RadarData := {
  labels : list string;
  datasets : list Dataset }.

Record RadarOptions := {
  responsive : bool;
  legend_position : string;
  r_beginAtZero : bool;
  r_max : Q;
  r_ticks_stepSize : Q }.

(** A React element: its tag, its plain props, its element-valued props
    ([title], [extra], [header], ...) and its children. The chart is a node
    of its own since its props are structured. *)
Inductive VNode : Type :=
  | VText (s : string)
  | VRadar (d : RadarData) (options : RadarOptions)
  | VElem (tag : string) (attrs : list (string * string))
      (slots : list (string * list VNode)) (children : list VNode).

Definition El (tag : string) (attrs : list (string * string))
    (children : list VNode) : VNode :=
  VElem tag attrs [] children.

(** What a traversal in document order gathers from the leaves of a tree:
    element-valued props first, then the children. *)
Fixpoint collect {A : Type} (leaf : VNode -> list A) (n : VNode) : list A :=
  match n with
  | VElem _ _ slots children =>
      (fix in_slots (ss : list (string * list VNode)) : list A :=
         match ss with
         | [] => []
         | (_, ns) :: ss' =>
             (fix in_nodes (l : list VNode) : list A :=
                match l with
                | [] => []
                | m :: l' => collect leaf m ++ in_nodes l'
                end) ns ++ in_slots ss'
         end) slots
      ++
      (fix in_nodes (l : list VNode) : list A :=
         match l with
         | [] => []
         | m :: l' => collect leaf m ++ in_nodes l'
         end) children
  | _ => leaf n
  end.

(** All the chart data shown by a tree. *)
Definition radars : VNode -> list RadarData :=
  collect (fun n => match n with VRadar d _ => [d] | _ => [] end).

(** All the text shown by a tree. *)
Definition texts : VNode -> list string :=
  collect (fun n => match n with VText s => [s] | _ => [] end).

(** [s && <jsx/>] for an optional string [s]: present and non-empty. *)
Definition when_truthy (s : option string) (jsx : string -> list VNode)
  : list VNode :=
  match s with
  | Some v => if String.eqb v "" then [] else jsx v
  | None => []
  end.

(** *** The component body *)

Definition radarData : RadarData :=
  {| labels := ["学术能力"; "语言能力"; "科研背景"; "实习背景"; "院校背景"];
     datasets :=
       [ {| label := "综合竞争力";
            data := [75; 60; 45; 50; 80]%Q;
            backgroundColor := "rgba(54, 162, 235, 0.2)";
            borderColor := "rgba(54, 162, 235, 1)";
            borderWidth := 2;
            pointBackgroundColor := "rgba(54, 162, 235, 1)" |} ] |}.

Definition radarOptions : RadarOptions :=
  {| responsive := true;
     legend_position := "top";
     r_beginAtZero := true;
     r_max := 100;
     r_ticks_stepSize := 20 |}.

Definition school_card (index : nat) (school : SchoolRecommendation)
  : VNode :=
  El "Card"
    [("key", pretty index); ("type", "inner"); ("size", "small");
     ("style", "{ marginBottom: 8 }")]
    [ El "Title" [("level", "5")] [VText (university school)];
      El "Text" [("type", "secondary")] [VText (program school)];
      El "Paragraph" [("style", "{ marginTop: 8, fontSize: '12px' }")]
        [VText (reason school)] ].

(** The text of one school card, top to bottom. *)
Definition school_texts (school : SchoolRecommendation) : list string :=
  [ university school; program school; reason school ].

Definition tier_column (icon color title : string)
    (schools : list SchoolRecommendation) : VNode :=
  El "Col" [("xs", "24"); ("lg", "8")]
    [ VElem "Card" [("size", "small")]
        [("title",
          [El "Space" []
             [El icon [("style", "{ color: '" +:+ color +:+ "' }")] [];
              VText title]])]
        (imap school_card schools) ].

Definition renderSchoolRecommendations (report : AnalysisReport) : VNode :=
  El "Row" [("gutter", "[16, 16]")]
    [ tier_column "RocketOutlined" "#ff4d4f" "冲刺院校 (Reach)"
        (reach (school_recommendations report));
      tier_column "AimOutlined" "#1890ff" "匹配院校 (Target)"
        (target (school_recommendations report));
      tier_column "SafetyOutlined" "#52c41a" "保底院校 (Safety)"
        (safety (school_recommendations report)) ].

Definition labelled (title body : string) : VNode :=
  El "div" []
    [ El "Text" [("strong", "true")] [VText title];
      El "Paragraph" [] [VText body] ].

Definition case_card (index : nat) (caseItem : CaseAnalysis) : VNode :=
  El "Col" [("xs", "24"); ("lg", "12"); ("key", pretty index)]
    [ VElem "Card" [("size", "small")]
        [("title",
          [VText ("案例 " +:+ pretty (index + 1) +:+ ": "
                  +:+ admitted_university caseItem)]);
         ("extra",
          [El "Tag" [("color", "blue")]
             [VText (admitted_program caseItem)]])]
        [ El "Space" [("direction", "vertical"); ("style", "{ width: '100%' }")]
            ([ El "div" []
                 ([ El "Text" [("strong", "true")] [VText "基本信息："];
                    El "br" [] [];
                    El "Text" []
                      [VText "GPA: "; VText (gpa caseItem);
                       VText " | 语言: "; VText (language_score caseItem)] ]
                  ++ when_truthy (language_test_type caseItem)
                       (fun t =>
                          [ El "br" [] [];
                            El "Text" []
                              [VText "语言考试类型: ";
                               El "Tag" [("color", "blue")] [VText t]] ])
                  ++ [ El "br" [] [];
                       El "Text" [("type", "secondary")]
                         [VText (undergraduate_info caseItem)] ]) ]
             ++ when_truthy (key_experiences caseItem)
                  (fun k =>
                     [ El "div" []
                         [ El "Text" [("strong", "true")] [VText "主要经历："];
                           El "br" [] [];
                           El "Text" [("type", "secondary")] [VText k] ] ])
             ++ [ El "Collapse" [("size", "small")]
                    [ VElem "Panel" [("key", "1")]
                        [("header", [VText "详细对比分析"])]
                        [ El "Space"
                            [("direction", "vertical");
                             ("style", "{ width: '100%' }")]
                            [ labelled "GPA对比："
                                (cmp_gpa (comparison caseItem));
                              labelled "院校对比："
                                (cmp_university (comparison caseItem));
                              labelled "经历对比："
                                (cmp_experience (comparison caseItem));
                              labelled "成功因素："
                                (success_factors caseItem);
                              labelled "可借鉴经验："
                                (takeaways caseItem) ] ] ] ]) ] ].

(** The text of one case card, top to bottom. *)
Definition case_texts (index : nat) (caseItem : CaseAnalysis)
  : list string :=
  [ "案例 " +:+ pretty (index + 1) +:+ ": " +:+ admitted_university caseItem;
    admitted_program caseItem;
    "基本信息："; "GPA: "; gpa caseItem; " | 语言: "; language_score caseItem ]
  ++ match language_test_type caseItem with
     | Some t => if String.eqb t "" then [] else ["语言考试类型: "; t]
     | None => []
     end
  ++ [ undergraduate_info caseItem ]
  ++ match key_experiences caseItem with
     | Some k => if String.eqb k "" then [] else ["主要经历："; k]
     | None => []
     end
  ++ [ "详细对比分析";
       "GPA对比："; cmp_gpa (comparison caseItem);
       "院校对比："; cmp_university (comparison caseItem);
       "经历对比："; cmp_experience (comparison caseItem);
       "成功因素："; success_factors caseItem;
       "可借鉴经验："; takeaways caseItem ].

Definition renderSimilarCases (report : AnalysisReport) : VNode :=
  El "Row" [("gutter", "[16, 16]")]
    (imap case_card (similar_cases report)).

Definition unavailable : string := "背景提升建议暂时无法生成".

(** The text of one step of the plan, as shown. *)
Definition plan_texts (plan : ActionPlan) : list string :=
  [ timeframe plan; "行动计划："; action plan; "预期目标："; goal plan ].

Definition plan_item (index : nat) (plan : ActionPlan) : VNode :=
  El "Timeline.Item" [("key", pretty index)]
    [ El "Card" [("size", "small")]
        [ El "Title" [("level", "5")] [VText (timeframe plan)];
          El "Paragraph" []
            [ El "Text" [("strong", "true")] [VText "行动计划："];
              VText (action plan) ];
          El "Paragraph" []
            [ El "Text" [("strong", "true")] [VText "预期目标："];
              VText (goal plan) ] ] ].

Definition renderBackgroundImprovement (report : AnalysisReport) : VNode :=
  match background_improvement report with
  | None => El "Alert" [("message", unavailable); ("type", "info")] []
  | Some improvement =>
      El "Space" [("direction", "vertical"); ("style", "{ width: '100%' }")]
        [ El "Timeline" [] (imap plan_item (action_plan improvement));
          El "Divider" [] [];
          VElem "Card" [("size", "small")]
            [("title", [VText "总体策略建议"])]
            [ El "Paragraph" [] [VText (strategy_summary improvement)] ] ]
  end.

Record TabItem := {
  key : string;
  tab_label : VNode;
  children : VNode }.

Definition tab_label_of (icon text : string) : VNode :=
  El "Space" [] [El icon [] []; VText text].

Definition titled_card (icon color title body : string) : VNode :=
  VElem "Card" [("size", "small")]
    [("title",
      [El "Space" []
         [El icon [("style", "{ color: '" +:+ color +:+ "' }")] [];
          VText title]])]
    [El "Paragraph" [] [VText body]].

Definition tabItems (report : AnalysisReport) : list TabItem :=
  [ {| key := "1";
       tab_label := tab_label_of "UserOutlined" "竞争力评估";
       children :=
         El "Row" [("gutter", "[16, 16]")]
           [ El "Col" [("xs", "24"); ("lg", "12")]
               [ VElem "Card" [("size", "small")]
                   [("title", [VText "综合竞争力雷达图"])]
                   [ El "div"
                       [("style",
                         "{ height: '300px', display: 'flex', justifyContent: 'center', alignItems: 'center' }")]
                       [VRadar radarData radarOptions] ] ];
             El "Col" [("xs", "24"); ("lg", "12")]
               [ El "Space"
                   [("direction", "vertical"); ("style", "{ width: '100%' }")]
                   [ titled_card "TrophyOutlined" "#52c41a" "核心优势"
                       (strengths (competitiveness report));
                     titled_card "WarningOutlined" "#faad14" "主要短板"
                       (weaknesses (competitiveness report)) ] ];
             El "Col" [("xs", "24")]
               [ VElem "Card" [("size", "small")]
                   [("title", [VText "综合评价"])]
                   [El "Paragraph" []
                      [VText (summary (competitiveness report))]] ] ] |};
    {| key := "2";
       tab_label := tab_label_of "BookOutlined" "选校建议";
       children :=
         El "Space" [("direction", "vertical"); ("style", "{ width: '100%' }")]
           [ renderSchoolRecommendations report;
             El "Divider" [] [];
             VElem "Card" [("size", "small")]
               [("title", [VText "案例透视"])]
               [El "Paragraph" []
                  [VText (case_insights (school_recommendations report))]] ] |};
    {| key := "3";
       tab_label := tab_label_of "UserOutlined" "相似案例";
       children := renderSimilarCases report |};
    {| key := "4";
       tab_label := tab_label_of "RocketOutlined" "背景提升";
       children := renderBackgroundImprovement report |} ].

(** [<Tabs items={tabItems}/>] shows each item as a pane under its
    label. *)
Definition tab_pane (item : TabItem) : VNode :=
  VElem "Tabs.TabPane" [("key", key item)]
    [("label", [tab_label item])] [children item].

(** The content of the tab with key [k]. *)
Definition panel (k : string) (report : AnalysisReport) : option VNode :=
  children <$> List.find (fun item => String.eqb (key item) k)
                 (tabItems report).

(** What the component returns. *)
Definition render (report : AnalysisReport) : VNode :=
  El "div" [("style", "{ maxWidth: 1400, margin: '0 auto', padding: '20px' }")]
    [ El "div" [("ref", "reportRef")]
        [ VElem "Card" []
            [("title", [VText "留学定位与选校规划分析报告"]);
             ("extra",
              [El "Space" []
                 [ VElem "Button"
                     [("type", "primary"); ("onClick", "downloadPDF")]
                     [("icon", [El "DownloadOutlined" [] []])]
                     [VText "下载PDF报告"];
                   El "Button" [("onClick", "onBack")]
                     [VText "返回修改"] ]])]
            [ El "Tabs" [("size", "large")]
                (map tab_pane (tabItems report)) ] ] ].

(** *** Export to PDF *)

Record HTMLDivElement := {
  scrollWidth : Z;
  scrollHeight : Z }.

Record Html2CanvasOptions := {
  useCORS : bool;
  allowTaint : bool;
  width : Z;
  height : Z }.

(** The canvas that [html2canvas] resolves with: its pixel size and what
    [toDataURL('image/png')] does on it (throws, or returns the data). *)
Record Canvas := {
  canvas_width : Z;
  canvas_height : Z;
  toDataURL : jsval + string }.

(** One [pdf.addImage(imageData, format, x, y, w, h)]. *)
Record Image := {
  imageData : string;
  format : string;
  x : Q;
  y : Q;
  w : Q;
  h : Q }.

(** A [jsPDF] document: its pages in order, each with the images drawn on
    it; drawing goes to the last page. *)
Record jsPDF := {
  orientation : string;
  unit_ : string;
  paper : string;
  pages : list (list Image) }.

Definition new_jsPDF (o u f : string) : jsPDF :=
  {| orientation := o; unit_ := u; paper := f; pages := [[]] |}.

Definition addPage (pdf : jsPDF) : jsPDF :=
  {| orientation := orientation pdf; unit_ := unit_ pdf; paper := paper pdf;
     pages := pages pdf ++ [[]] |}.

Definition addImage (i : Image) (pdf : jsPDF) : jsPDF :=
  {| orientation := orientation pdf; unit_ := unit_ pdf; paper := paper pdf;
     pages :=
       match last (pages pdf) with
       | Some p => removelast (pages pdf) ++ [p ++ [i]]
       | None => [[i]]
       end |}.

Definition imgWidth : Q := 210.
Definition pageHeight : Q := 295.

(** The [while (heightLeft >= 0)] loop; [None] when the fuel runs out
    before the loop ends. *)
Fixpoint while_heightLeft (fuel : nat) (imgData : string)
    (imgHeight heightLeft : Q) (pdf : jsPDF) : option jsPDF :=
  match fuel with
  | O => None
  | S fuel' =>
      if Qle_bool 0 heightLeft then
        let position := (heightLeft - imgHeight)%Q in
        let pdf := addPage pdf in
        let pdf :=
          addImage {| imageData := imgData; format := "PNG"; x := 0;
                      y := position; w := imgWidth; h := imgHeight |} pdf in
        while_heightLeft fuel' imgData imgHeight (heightLeft - pageHeight)%Q pdf
      else Some pdf
  end.

(** The pagination of [downloadPDF], from [new jsPDF] to the end of the
    loop, for an image of height [imgHeight]. *)
Definition paginate (fuel : nat) (imgData : string) (imgHeight : Q)
  : option jsPDF :=
  let pdf := new_jsPDF "p" "mm" "a4" in
  let heightLeft := imgHeight in
  let position := 0%Q in
  let pdf :=
    addImage {| imageData := imgData; format := "PNG"; x := 0;
                y := position; w := imgWidth; h := imgHeight |} pdf in
  let heightLeft := (heightLeft - pageHeight)%Q in
  while_heightLeft fuel imgData imgHeight heightLeft pdf.

(** A page shows nothing when every image drawn on it ends at or above
    its top edge. *)
Definition blank (page : list Image) : bool :=
  forallb (fun i => Qle_bool (y i + h i)%Q 0) page.

(** The image that every page of the document carries, at height [top]. *)
Definition slice (imgData : string) (imgHeight top : Q) : Image :=
  {| imageData := imgData; format := "PNG"; x := 0; y := top;
     w := imgWidth; h := imgHeight |}.

(** A canvas of a positive width and a height that is not negative. *)
Definition well_sized (c : Canvas) : Prop :=
  (0 < canvas_width c)%Z /\ (0 <= canvas_height c)%Z.

(** What the exporter can act on: the orchestrator, the files written and
    the console. *)
Record World := {
  app : App.World;
  files : list (string * jsPDF);
  console : list (string * jsval) }.

(** The report view on screen, nothing exported yet. *)
Definition viewing (report : AnalysisReport) : World :=
  {| app := App.handleFormSubmit (inr report) App.initial;
     files := [];
     console := [] |}.

(** A computation either finishes, throws, or is still running when the
    fuel is spent. *)
Inductive Outcome (A : Type) : Type :=
  | Done (a : A)
  | Thrown (e : jsval)
  | Running.
Arguments Done {A} a.
Arguments Thrown {A} e.
Arguments Running {A}.

Definition M (A : Type) : Type := World -> Outcome A * World.

Definition ret {A} (a : A) : M A := fun wd => (Done a, wd).

Definition bind {A B} (m : M A) (k : A -> M B) : M B :=
  fun wd =>
    match m wd with
    | (Done a, wd') => k a wd'
    | (Thrown e, wd') => (Thrown e, wd')
    | (Running, wd') => (Running, wd')
    end.

Notation "'let!' x ':=' m 'in' k" := (bind m (fun x => k))
  (at level 10, x name, m at level 100, k at level 200).

(** [try { body } catch (error) { handler }] *)
Definition try_catch {A} (body : M A) (handler : jsval -> M A) : M A :=
  fun wd =>
    match body wd with
    | (Thrown e, wd') => handler e wd'
    | r => r
    end.

(** A settled promise or a call that may throw. *)
Definition settle {A} (r : jsval + A) : M A :=
  fun wd => match r with inl e => (Thrown e, wd) | inr a => (Done a, wd) end.

Definition terminating {A} (r : option A) : M A :=
  fun wd => match r with Some a => (Done a, wd) | None => (Running, wd) end.

Definition save (filename : string) (pdf : jsPDF) : M unit :=
  fun wd =>
    (Done tt,
     {| app := app wd; files := files wd ++ [(filename, pdf)];
        console := console wd |}).

Definition console_error (text : string) (e : jsval) : M unit :=
  fun wd =>
    (Done tt,
     {| app := app wd; files := files wd;
        console := console wd ++ [(text, e)] |}).

(** [downloadPDF], given what [reportRef.current] holds and how
    [html2canvas] behaves. *)
Definition downloadPDF (fuel : nat) (current : option HTMLDivElement)
    (html2canvas : HTMLDivElement -> Html2CanvasOptions -> jsval + Canvas)
  : M unit :=
  match current with
  | None => ret tt
  | Some element =>
      try_catch
        (let! canvas :=
           settle (html2canvas element
                     {| useCORS := true; allowTaint := true;
                        width := (scrollWidth element * 2)%Z;
                        height := (scrollHeight element * 2)%Z |}) in
         let! imgData := settle (toDataURL canvas) in
         let imgHeight :=
           ((inject_Z (canvas_height canvas) * imgWidth)
            / inject_Z (canvas_width canvas))%Q in
         let! pdf := terminating (paginate fuel imgData imgHeight) in
         save "留学分析报告.pdf" pdf)
        (fun error => console_error "PDF生成失败:" error)
  end.

End AnalysisReport.

(** * Properties *)

(** ** JavaScript values *)

Lemma truthy_not_empty (v : jsval) : truthy v = true -> is_empty v = false.
Proof.
  destruct v; simpl; try done.
  intros H. by apply negb_true_iff in H.
Qed.

Lemma truthy_js_or (a b : jsval) : truthy b = true -> truthy (js_or a b) = true.
Proof. intros Hb. unfold js_or. by destruct (truthy a) eqn:Ha. Qed.

(** ** UserForm *)

Module UserFormProps.

Import UserForm.

Ltac lookups :=
  unfold assign;
  repeat first
    [ rewrite lookup_insert_eq
    | rewrite lookup_insert_ne by done
    | rewrite lookup_empty ].

Lemma formData0_optional (values : gmap string jsval) (k : string) :
  k ∈ language_fields ++ gre_fields ++ gmat_fields ->
  formData0 values !! k = None.
Proof.
  intros Hk. unfold formData0; simpl.
  repeat (apply elem_of_cons in Hk as [-> | Hk]; [by lookups |]).
  by apply elem_of_nil in Hk.
Qed.

(** Each block writes its own properties, and only those. *)
Lemma addLanguage_in (b : bool) (values formData : gmap string jsval)
    (k : string) :
  k ∈ language_fields ->
  addLanguage b values formData !! k =
    if b && truthy (prop values "language_test_type")
         && truthy (prop values "language_total_score")
    then Some (prop values k) else formData !! k.
Proof.
  intros Hk. unfold addLanguage. case_match; [| done].
  repeat (apply elem_of_cons in Hk as [-> | Hk]; [by lookups |]).
  by apply elem_of_nil in Hk.
Qed.

Lemma addLanguage_out (b : bool) (values formData : gmap string jsval)
    (k : string) :
  k ∉ language_fields ->
  addLanguage b values formData !! k = formData !! k.
Proof.
  intros Hk. unfold addLanguage, assign. case_match; [| done].
  unfold language_fields in Hk.
  repeat (rewrite lookup_insert_ne; [| intros <-; apply Hk; apply (bool_decide_unpack _); by vm_compute]).
  done.
Qed.

Lemma addGRE_in (b : bool) (values formData : gmap string jsval)
    (k : string) :
  k ∈ gre_fields ->
  addGRE b values formData !! k =
    if b && truthy (prop values "gre_total")
    then Some (prop values k) else formData !! k.
Proof.
  intros Hk. unfold addGRE. case_match; [| done].
  repeat (apply elem_of_cons in Hk as [-> | Hk]; [by lookups |]).
  by apply elem_of_nil in Hk.
Qed.

Lemma addGRE_out (b : bool) (values formData : gmap string jsval)
    (k : string) :
  k ∉ gre_fields ->
  addGRE b values formData !! k = formData !! k.
Proof.
  intros Hk. unfold addGRE, assign. case_match; [| done].
  unfold gre_fields in Hk.
  repeat (rewrite lookup_insert_ne; [| intros <-; apply Hk; apply (bool_decide_unpack _); by vm_compute]).
  done.
Qed.

Lemma addGMAT_in (b : bool) (values formData : gmap string jsval)
    (k : string) :
  k ∈ gmat_fields ->
  addGMAT b values formData !! k =
    if b && truthy (prop values "gmat_total")
    then Some (prop values k) else formData !! k.
Proof.
  intros Hk. unfold addGMAT. case_match; [| done].
  repeat (apply elem_of_cons in Hk as [-> | Hk]; [by lookups |]).
  by apply elem_of_nil in Hk.
Qed.

Lemma addGMAT_out (b : bool) (values formData : gmap string jsval)
    (k : string) :
  k ∉ gmat_fields ->
  addGMAT b values formData !! k = formData !! k.
Proof.
  intros Hk. unfold addGMAT, assign. case_match; [| done].
  unfold gmat_fields in Hk.
  repeat (rewrite lookup_insert_ne; [| intros <-; apply Hk; apply (bool_decide_unpack _); by vm_compute]).
  done.
Qed.

(** The three blocks have no property in common. *)
Lemma blocks_disjoint (k : string) :
  (k ∈ language_fields -> (k ∉ gre_fields) ∧ (k ∉ gmat_fields))
  ∧ (k ∈ gre_fields -> (k ∉ language_fields) ∧ (k ∉ gmat_fields))
  ∧ (k ∈ gmat_fields -> (k ∉ language_fields) ∧ (k ∉ gre_fields)).
Proof.
  split; [| split]; intros Hk;
    repeat (apply elem_of_cons in Hk as [-> | Hk];
            [by split; apply (bool_decide_unpack _); vm_compute |]);
    by apply elem_of_nil in Hk.
Qed.

(** What [handleSubmit] leaves under a property of each block. *)
Lemma handleSubmit_language (hasLanguageScore hasGRE hasGMAT : bool)
    (values : gmap string jsval) (k : string) :
  k ∈ language_fields ->
  handleSubmit hasLanguageScore hasGRE hasGMAT values !! k =
    if hasLanguageScore && truthy (prop values "language_test_type")
         && truthy (prop values "language_total_score")
    then Some (prop values k) else None.
Proof.
  intros Hk. destruct (blocks_disjoint k) as (Hd & _ & _).
  destruct (Hd Hk) as [Hgre Hgmat]. unfold handleSubmit.
  rewrite addGMAT_out, addGRE_out, addLanguage_in by done.
  rewrite formData0_optional; [done | rewrite !elem_of_app; auto].
Qed.

Lemma handleSubmit_gre (hasLanguageScore hasGRE hasGMAT : bool)
    (values : gmap string jsval) (k : string) :
  k ∈ gre_fields ->
  handleSubmit hasLanguageScore hasGRE hasGMAT values !! k =
    if hasGRE && truthy (prop values "gre_total")
    then Some (prop values k) else None.
Proof.
  intros Hk. destruct (blocks_disjoint k) as (_ & Hd & _).
  destruct (Hd Hk) as [Hlang Hgmat]. unfold handleSubmit.
  rewrite addGMAT_out, addGRE_in, addLanguage_out by done.
  rewrite formData0_optional; [done | rewrite !elem_of_app; auto].
Qed.

Lemma handleSubmit_gmat (hasLanguageScore hasGRE hasGMAT : bool)
    (values : gmap string jsval) (k : string) :
  k ∈ gmat_fields ->
  handleSubmit hasLanguageScore hasGRE hasGMAT values !! k =
    if hasGMAT && truthy (prop values "gmat_total")
    then Some (prop values k) else None.
Proof.
  intros Hk. destruct (blocks_disjoint k) as (_ & _ & Hd).
  destruct (Hd Hk) as [Hlang Hgre]. unfold handleSubmit.
  rewrite addGMAT_in, addGRE_out, addLanguage_out by done.
  rewrite formData0_optional; [done | rewrite !elem_of_app; auto].
Qed.

(** No toggle makes the form render an input for the verbal or the
    quantitative score. *)
Lemma gre_subscores_not_rendered (hasLanguageScore hasGRE hasGMAT : bool) :
  ("gre_verbal" ∉ rendered_fields hasLanguageScore hasGRE hasGMAT)
  ∧ ("gre_quantitative" ∉ rendered_fields hasLanguageScore hasGRE hasGMAT).
Proof.
  destruct hasLanguageScore, hasGRE, hasGMAT;
    split; apply (bool_decide_unpack _); by vm_compute.
Qed.

(** Whatever the user does, the Profile built from a form has no verbal
    and no quantitative score: the handler copies them, the form never
    collects them. *)
Lemma gre_subscores_never_collected (hasLanguageScore hasGRE hasGMAT : bool)
    (values : gmap string jsval) :
  from_form hasLanguageScore hasGRE hasGMAT values ->
  prop (handleSubmit hasLanguageScore hasGRE hasGMAT values) "gre_verbal"
    = JUndefined
  ∧ prop (handleSubmit hasLanguageScore hasGRE hasGMAT values)
      "gre_quantitative" = JUndefined.
Proof.
  intros Hform.
  destruct (gre_subscores_not_rendered hasLanguageScore hasGRE hasGMAT)
    as [Hv Hq].
  assert (Hnone : forall k,
             k ∉ rendered_fields hasLanguageScore hasGRE hasGMAT ->
             prop values k = JUndefined).
  { intros k Hk. unfold prop. destruct (values !! k) eqn:E; [| done].
    exfalso. apply Hk.
    apply (elem_of_list_to_set (C := gset string)), Hform, elem_of_dom.
    by rewrite E. }
  split; unfold prop at 1;
    rewrite handleSubmit_gre by (apply (bool_decide_unpack _); by vm_compute).
  - rewrite (Hnone _ Hv). by case_match.
  - rewrite (Hnone _ Hq). by case_match.
Qed.

(** C2. An optional score block (language test, GRE, GMAT) reaches the
    Profile only when its toggle is on and its trigger fields (test type
    and total score for the language test, the total score for GRE and
    GMAT) are not empty. With the toggle off none of the block's
    properties is in the Profile, whatever the form still holds; with the
    toggle on and a trigger field empty, none is either. *)
Theorem optional_blocks_gated (hasLanguageScore hasGRE hasGMAT : bool)
    (values : gmap string jsval) :
  let profile := handleSubmit hasLanguageScore hasGRE hasGMAT values in
  (forall k, k ∈ language_fields ->
     (is_Some (profile !! k) ->
        hasLanguageScore = true
        ∧ is_empty (prop values "language_test_type") = false
        ∧ is_empty (prop values "language_total_score") = false)
     ∧ (hasLanguageScore = false -> profile !! k = None)
     ∧ (is_empty (prop values "language_test_type") = true
        ∨ is_empty (prop values "language_total_score") = true ->
        profile !! k = None))
  ∧ (forall k, k ∈ gre_fields ->
       (is_Some (profile !! k) ->
          hasGRE = true ∧ is_empty (prop values "gre_total") = false)
       ∧ (hasGRE = false -> profile !! k = None)
       ∧ (is_empty (prop values "gre_total") = true -> profile !! k = None))
  ∧ (forall k, k ∈ gmat_fields ->
       (is_Some (profile !! k) ->
          hasGMAT = true ∧ is_empty (prop values "gmat_total") = false)
       ∧ (hasGMAT = false -> profile !! k = None)
       ∧ (is_empty (prop values "gmat_total") = true ->
          profile !! k = None)).
Proof.
  intros profile. subst profile. split; [| split]; intros k Hk.
  - rewrite handleSubmit_language by done.
    destruct hasLanguageScore; simpl;
      destruct (truthy (prop values "language_test_type")) eqn:Ht; simpl;
      destruct (truthy (prop values "language_total_score")) eqn:Hs; simpl;
      repeat split; try done; try (by intros [? ?]);
      try (by apply truthy_not_empty).
    intros [He | He]; apply truthy_not_empty in Ht, Hs; congruence.
  - rewrite handleSubmit_gre by done.
    destruct hasGRE; simpl;
      destruct (truthy (prop values "gre_total")) eqn:Ht; simpl;
      repeat split; try done; try (by intros [? ?]);
      try (by apply truthy_not_empty).
    intros He. apply truthy_not_empty in Ht. congruence.
  - rewrite handleSubmit_gmat by done.
    destruct hasGMAT; simpl;
      destruct (truthy (prop values "gmat_total")) eqn:Ht; simpl;
      repeat split; try done; try (by intros [? ?]);
      try (by apply truthy_not_empty).
    intros He. apply truthy_not_empty in Ht. congruence.
Qed.

(** C5. In every Profile that has a language-test total score, the test
    type is there too, and it is not empty. *)
Theorem language_total_implies_type (hasLanguageScore hasGRE hasGMAT : bool)
    (values : gmap string jsval) :
  is_Some (handleSubmit hasLanguageScore hasGRE hasGMAT values
             !! "language_total_score") ->
  exists t,
    handleSubmit hasLanguageScore hasGRE hasGMAT values
      !! "language_test_type" = Some t
    ∧ is_empty t = false.
Proof.
  rewrite !handleSubmit_language
    by (apply (bool_decide_unpack _); by vm_compute).
  destruct hasLanguageScore; simpl;
    destruct (truthy (prop values "language_test_type")) eqn:Ht; simpl;
    destruct (truthy (prop values "language_total_score")) eqn:Hs; simpl;
    try (by intros [? ?]).
  intros _. eexists. split; [done |]. by apply truthy_not_empty.
Qed.

Lemma handleSubmit_base (hasLanguageScore hasGRE hasGMAT : bool)
    (values : gmap string jsval) (k : string) :
  k ∉ language_fields -> k ∉ gre_fields -> k ∉ gmat_fields ->
  handleSubmit hasLanguageScore hasGRE hasGMAT values !! k
    = formData0 values !! k.
Proof.
  intros Hl Hg Hm. unfold handleSubmit.
  by rewrite addGMAT_out, addGRE_out, addLanguage_out.
Qed.

Lemma handleSubmit_experiences (hasLanguageScore hasGRE hasGMAT : bool)
    (values : gmap string jsval) (k : string) :
  k ∈ experience_fields ->
  handleSubmit hasLanguageScore hasGRE hasGMAT values !! k
    = Some (js_or (prop values k) (JArr [])).
Proof.
  intros Hk.
  repeat (apply elem_of_cons in Hk as [-> | Hk];
          [ rewrite handleSubmit_base
              by (apply (bool_decide_unpack _); by vm_compute);
            unfold formData0; simpl; by lookups |]).
  by apply elem_of_nil in Hk.
Qed.

(** C10. Every Profile has the three experience properties, and none of
    them is [undefined] or [null]. A list the user added nothing to (the
    form holds nothing, or an emptied array) is submitted as the empty
    array; a list with entries is submitted as it is. So the submitted
    value is an array whenever the form holds for the list an array or
    nothing, which is what Form.List keeps. *)
Theorem experiences_always_arrays (hasLanguageScore hasGRE hasGMAT : bool)
    (values : gmap string jsval) (k : string) :
  k ∈ experience_fields ->
  exists v,
    handleSubmit hasLanguageScore hasGRE hasGMAT values !! k = Some v
    /\ truthy v = true /\ v <> JUndefined /\ v <> JNull
    /\ (prop values k = JUndefined \/ prop values k = JArr [] -> v = JArr [])
    /\ (forall l, prop values k = JArr l -> v = JArr l)
    /\ ((truthy (prop values k) = true -> is_array (prop values k) = true) ->
        is_array v = true).
Proof.
  intros Hk. rewrite handleSubmit_experiences by done.
  eexists; split; [done |].
  assert (Ht : truthy (js_or (prop values k) (JArr [])) = true)
    by by apply truthy_js_or.
  split; [done |].
  split; [by intros E; rewrite E in Ht |].
  split; [by intros E; rewrite E in Ht |].
  clear Ht. unfold js_or.
  destruct (truthy (prop values k)) eqn:Ht.
  - split; [| split; [done | auto]].
    intros [E | E]; [| done]. by rewrite E in Ht.
  - split; [done |]. split; [| done].
    intros l E. by rewrite E in Ht.
Qed.

(** C6. With the GRE row open and filled (total 320, writing 4.0), the
    Profile has the total and the writing score, but its verbal and
    quantitative scores are [undefined]: the handler copies four scores
    and the form has inputs for two. *)
Theorem gre_subscores_missing :
  from_form false true false gre_submission
  /\ handleSubmit false true false gre_submission !! "gre_total"
      = Some (JNum 320)
  /\ handleSubmit false true false gre_submission !! "gre_writing"
      = Some (JNum 4)
  /\ prop (handleSubmit false true false gre_submission) "gre_verbal"
      = JUndefined
  /\ prop (handleSubmit false true false gre_submission) "gre_quantitative"
      = JUndefined.
Proof.
  split; [unfold from_form; apply (bool_decide_unpack _); by vm_compute |].
  repeat split; by vm_compute.
Qed.

(** Were the two scores among the values, they would be copied. *)
Example gre_subscores_copied :
  handleSubmit false true false
    (<["gre_verbal" := JNum 160]> gre_submission) !! "gre_verbal"
  = Some (JNum 160).
Proof. by vm_compute. Qed.

(** A toggle switched off hides stale values: the language scores still in
    the form do not reach the Profile. *)
Example stale_language_scores_dropped :
  handleSubmit false true false language_submission !! "language_total_score"
  = None
  /\ handleSubmit true true false language_submission
        !! "language_total_score" = Some (JNum 105).
Proof. split; by vm_compute. Qed.

(** A total of zero counts as no score: the block is left out. *)
Example zero_total_omitted :
  handleSubmit false false true (<["gmat_total" := JNum 0]> gre_submission)
    !! "gmat_total" = None.
Proof. by vm_compute. Qed.

Lemma language_total_implies_type_witness :
  exists t,
    handleSubmit true true false language_submission
      !! "language_test_type" = Some t
    /\ is_empty t = false.
Proof.
  apply (language_total_implies_type true true false language_submission).
  vm_compute. by eexists.
Defined.

Lemma experiences_always_arrays_witness :
  exists v,
    handleSubmit false true false research_submission
      !! "research_experiences" = Some v
    /\ truthy v = true /\ v <> JUndefined /\ v <> JNull
    /\ (prop research_submission "research_experiences" = JUndefined
        \/ prop research_submission "research_experiences" = JArr [] ->
        v = JArr [])
    /\ (forall l, prop research_submission "research_experiences" = JArr l ->
        v = JArr l)
    /\ ((truthy (prop research_submission "research_experiences") = true ->
         is_array (prop research_submission "research_experiences") = true) ->
        is_array v = true).
Proof.
  apply (experiences_always_arrays false true false research_submission
           "research_experiences").
  apply (bool_decide_unpack _). by vm_compute.
Defined.

(** Nothing entered: the three lists go out as empty arrays. *)
Example no_experiences_empty_arrays :
  (fun k => handleSubmit false true false gre_submission !! k)
    <$> experience_fields
  = [Some (JArr []); Some (JArr []); Some (JArr [])].
Proof. by vm_compute. Qed.

End UserFormProps.

(** ** App *)

Module AppProps.

Import App.

Lemma get_not_nullish (x : jsval) (k : string) :
  nullish x = false -> get x k = Some (get_opt x k).
Proof. by destruct x. Qed.

(** Outside [undefined] and [null] the [catch] block does not throw, and
    it picks the message by precedence. *)
Lemma errorMessage_spec (err : jsval) :
  nullish err = false ->
  errorMessage err =
    Some (let detail := get_opt (get_opt (get_opt err "response") "data")
                          "detail" in
          let text := get_opt err "message" in
          if truthy detail then detail
          else if truthy text then text else JStr fallback).
Proof.
  intros Hn. unfold errorMessage. rewrite !get_not_nullish by done. simpl.
  repeat case_match; done.
Qed.

Lemma truthy_defined (m : jsval) :
  truthy m = true -> m <> JUndefined /\ m <> JNull /\ m <> JStr "".
Proof. intros H. repeat split; intros ->; done. Qed.

(** The setters and the toasts do not interfere. *)
Lemma handleFormSubmit_rejected (err m : jsval) (w : World) :
  errorMessage err = Some m ->
  handleFormSubmit (inl err) w =
    {| state := {| currentStep := currentStep (state w);
                   analysisReport := analysisReport (state w);
                   loading := false |};
       toasts := toasts w ++ [error m] |}.
Proof. intros H. unfold handleFormSubmit, submit_end. by rewrite H. Qed.

Lemma handleFormSubmit_resolved (r : Api.AnalysisReport) (w : World) :
  handleFormSubmit (inr r) w =
    {| state := {| currentStep := report; analysisReport := Some r;
                   loading := false |};
       toasts := toasts w ++ [success (JStr "分析完成！")] |}.
Proof. done. Qed.

Lemma reachable_consistent (w : World) : reachable w -> consistent w.
Proof.
  induction 1 as [| w w' Hw IH Hstep]; [done |].
  destruct w as [[s r l] ts]. unfold consistent in *. simpl in *.
  inversion Hstep as [? Hview | ? outcome Hload | ? r' Hview]; subst;
    simpl in *.
  - destruct s; [done | by destruct r].
  - destruct outcome as [err | r'']; simpl.
    + destruct (errorMessage err); simpl; destruct s; try done;
        destruct IH as [_ IH]; congruence.
    + split; [by eexists | done].
  - done.
Qed.

(** C3. When the analysis call fails (with anything that has properties,
    as every rejection of the HTTP client does), exactly one error toast is
    shown; its text is the [detail] of the response when there is one,
    else the [message] of the error when there is one, else the fixed
    fallback, and it is never [undefined], [null] or the empty string. *)
Theorem error_message_precedence (err : jsval) (w : World) :
  nullish err = false ->
  exists m,
    toasts (handleFormSubmit (inl err) w) = toasts w ++ [error m]
    /\ m = (let detail := get_opt (get_opt (get_opt err "response") "data")
                            "detail" in
            let text := get_opt err "message" in
            if truthy detail then detail
            else if truthy text then text else JStr fallback)
    /\ truthy m = true
    /\ m <> JUndefined /\ m <> JNull /\ m <> JStr "".
Proof.
  intros Hn. pose proof (errorMessage_spec err Hn) as Hm.
  eexists. split; [by rewrite (handleFormSubmit_rejected _ _ _ Hm) |].
  split; [done |].
  assert (Ht : truthy
    (let detail := get_opt (get_opt (get_opt err "response") "data")
                     "detail" in
     let text := get_opt err "message" in
     if truthy detail then detail
     else if truthy text then text else JStr fallback) = true).
  { simpl. repeat case_match; done. }
  split; [done |]. by apply truthy_defined.
Qed.

(** C4. The application starts on the form with no report. From the form,
    a submission keeps the form mounted while the call is pending; when the
    call succeeds the application shows the report and holds exactly the
    report returned; when it fails the application is on the form again,
    form still mounted, with an error toast and no report stored. Going
    back from the report returns to the form and drops the report. *)
Theorem orchestrator_transitions :
  (view (state initial) = ShowForm false
   /\ analysisReport (state initial) = None)
  /\ forall w, reachable w ->
       (view (state w) = ShowForm false ->
          view (state (submit_begin w)) = ShowForm true
          /\ (forall r,
                let w' := handleFormSubmit (inr r) w in
                currentStep (state w') = report
                /\ analysisReport (state w') = Some r
                /\ view (state w') = ShowReport r)
          /\ (forall err, nullish err = false ->
                let w' := handleFormSubmit (inl err) w in
                currentStep (state w') = form
                /\ analysisReport (state w') = None
                /\ view (state w') = ShowForm false
                /\ exists m, toasts w' = toasts w ++ [error m]))
       /\ (forall r, view (state w) = ShowReport r ->
             let w' := handleBackToForm w in
             currentStep (state w') = form
             /\ analysisReport (state w') = None
             /\ view (state w') = ShowForm false).
Proof.
  split; [done |]. intros w Hw.
  pose proof (reachable_consistent w Hw) as Hc. split.
  - intros Hview.
    assert (Hs : currentStep (state w) = form
                 /\ analysisReport (state w) = None).
    { destruct w as [[s r l] ts]. unfold consistent, view in *. simpl in *.
      destruct s; [done | by destruct r]. }
    destruct Hs as [Hs Hr].
    split. { unfold view, submit_begin. simpl. by rewrite Hs. }
    split. { intros r w'. subst w'. by rewrite handleFormSubmit_resolved. }
    intros err Hn w'. subst w'.
    rewrite (handleFormSubmit_rejected _ _ _ (errorMessage_spec err Hn)).
    unfold view. simpl. rewrite Hs, Hr. repeat split. by eexists.
  - intros r0 Hview w'. subst w'.
    destruct w as [[s r l] ts].
    unfold consistent, view, handleBackToForm in *. simpl in *.
    destruct s; [done |]. by destruct Hc as [_ ->].
Qed.

(** The report view is reached, and left again. *)
Example report_reachable (r : Api.AnalysisReport) :
  reachable (handleFormSubmit (inr r) initial)
  /\ view (state (handleFormSubmit (inr r) initial)) = ShowReport r
  /\ reachable (handleBackToForm (handleFormSubmit (inr r) initial)).
Proof.
  assert (H1 : reachable (submit_begin initial)).
  { eapply reach_step; [apply reach_init | by apply step_submit]. }
  assert (H2 : reachable (handleFormSubmit (inr r) initial)).
  { eapply reach_step; [exact H1 | by apply step_settle]. }
  split; [done |]. split; [done |].
  eapply reach_step; [exact H2 | by eapply step_back].
Qed.

(** The two scenarios of the specification: the server's detail is shown
    as it is; a timeout shows the client's own message. *)
Example quota_exceeded_verbatim :
  errorMessage quota_error = Some (JStr "quota exceeded").
Proof. by vm_compute. Qed.

Example timeout_message :
  errorMessage timeout_error = Some (JStr "timeout of 300000ms exceeded").
Proof. by vm_compute. Qed.

Example bare_error_fallback :
  errorMessage (JObj ∅) = Some (JStr fallback).
Proof. by vm_compute. Qed.

Lemma error_message_precedence_witness :
  exists m,
    toasts (handleFormSubmit (inl quota_error) initial) = [error m]
    /\ m = JStr "quota exceeded"
    /\ truthy m = true
    /\ m <> JUndefined /\ m <> JNull /\ m <> JStr "".
Proof. exact (error_message_precedence quota_error initial eq_refl). Defined.

End AppProps.

(** ** AnalysisReport: export *)

Module ExportProps.

Import AnalysisReport.

Lemma pages_addImage_addPage (i : Image) (pdf : jsPDF) :
  pages (addImage i (addPage pdf)) = pages pdf ++ [[i]].
Proof.
  unfold addImage, addPage. simpl.
  by rewrite last_snoc, removelast_last.
Qed.

Lemma inject_succ (k : nat) :
  (inject_Z (Z.of_nat (S k)) == inject_Z (Z.of_nat k) + 1)%Q.
Proof. by rewrite Nat2Z.inj_succ, <- Z.add_1_r, inject_Z_plus. Qed.

(** With [k] page heights between it and the end, the loop adds [k] pages
    and stops, provided the fuel lasts. *)
Lemma while_heightLeft_pages (k : nat) :
  forall (fuel : nat) (imgData : string) (imgHeight heightLeft : Q)
         (pdf : jsPDF),
    ((inject_Z (Z.of_nat k) - 1) * pageHeight <= heightLeft)%Q ->
    (heightLeft < inject_Z (Z.of_nat k) * pageHeight)%Q ->
    (k < fuel)%nat ->
    exists pdf',
      while_heightLeft fuel imgData imgHeight heightLeft pdf = Some pdf'
      /\ length (pages pdf') = (length (pages pdf) + k)%nat.
Proof.
  induction k as [| k IH]; intros fuel imgData imgHeight heightLeft pdf
    Hlo Hhi Hfuel.
  - destruct fuel as [| fuel]; [lia |]. simpl.
    destruct (Qle_bool 0 heightLeft) eqn:E.
    + apply Qle_bool_iff in E.
      change (inject_Z (Z.of_nat 0)) with 0%Q in Hhi.
      unfold pageHeight in Hhi. lra.
    + exists pdf. split; [done | lia].
  - destruct fuel as [| fuel]; [lia |]. simpl.
    rewrite inject_succ in Hlo, Hhi. unfold pageHeight in *.
    assert (E : Qle_bool 0 heightLeft = true).
    { apply Qle_bool_iff.
      assert (0 <= inject_Z (Z.of_nat k))%Q
        by (change 0%Q with (inject_Z 0); rewrite <- Zle_Qle; lia).
      nra. }
    rewrite E.
    edestruct (IH fuel imgData imgHeight (heightLeft - 295)%Q) as
      (pdf' & Hrun & Hlen); [lra | lra | lia |].
    exists pdf'. split; [exact Hrun |].
    rewrite Hlen, pages_addImage_addPage, length_app. simpl. lia.
Qed.

Lemma paginate_pages (k fuel : nat) (imgData : string) (imgHeight : Q) :
  (inject_Z (Z.of_nat k) * pageHeight <= imgHeight)%Q ->
  (imgHeight < (inject_Z (Z.of_nat k) + 1) * pageHeight)%Q ->
  (k < fuel)%nat ->
  exists pdf,
    paginate fuel imgData imgHeight = Some pdf
    /\ length (pages pdf) = (k + 1)%nat.
Proof.
  intros Hlo Hhi Hfuel. unfold paginate.
  edestruct (while_heightLeft_pages k fuel imgData imgHeight
               (imgHeight - pageHeight)%Q) as (pdf' & Hrun & Hlen);
    [unfold pageHeight in *; lra | unfold pageHeight in *; lra | done |].
  exists pdf'. split; [exact Hrun |]. rewrite Hlen. simpl. lia.
Qed.

(** The pagination always ends, and an image of height [H >= 0] comes out
    on [floor (H / 295) + 1] pages. *)
Lemma paginate_page_count (imgData : string) (imgHeight : Q) :
  (0 <= imgHeight)%Q ->
  forall fuel, (Z.to_nat (Qfloor (imgHeight / pageHeight)) < fuel)%nat ->
    exists pdf,
      paginate fuel imgData imgHeight = Some pdf
      /\ Z.of_nat (length (pages pdf))
         = (Qfloor (imgHeight / pageHeight) + 1)%Z.
Proof.
  intros H0 fuel Hfuel.
  set (q := (imgHeight / pageHeight)%Q) in *.
  assert (Hq : (imgHeight == 295 * q)%Q).
  { subst q. unfold pageHeight. by rewrite Qmult_div_r. }
  clearbody q.
  assert (Hq0 : (0 <= q)%Q) by lra.
  assert (Hf0 : (0 <= Qfloor q)%Z).
  { change 0%Z with (Qfloor 0). by apply Qfloor_resp_le. }
  pose proof (Qfloor_le q) as Hfl. pose proof (Qlt_floor q) as Hfu.
  rewrite inject_Z_plus in Hfu.
  edestruct (paginate_pages (Z.to_nat (Qfloor q)) fuel imgData imgHeight)
    as (pdf & Hrun & Hlen).
  - rewrite Z2Nat.id by done. unfold pageHeight. lra.
  - rewrite Z2Nat.id by done. unfold pageHeight.
    change (inject_Z 1) with 1%Q in Hfu. lra.
  - done.
  - exists pdf. split; [exact Hrun |]. rewrite Hlen. lia.
Qed.

Lemma Qceiling_unique (q : Q) (z : Z) :
  (inject_Z z - 1 < q)%Q -> (q <= inject_Z z)%Q -> Qceiling q = z.
Proof.
  intros Hlo Hhi.
  pose proof (Qle_ceiling q) as Hc. pose proof (Qceiling_lt q) as Hc'.
  unfold Z.sub in Hc'. rewrite inject_Z_plus in Hc'.
  change (inject_Z (- (1))) with (- (1))%Q in Hc'.
  assert (inject_Z z - 1 < inject_Z (Qceiling q))%Q by lra.
  assert (inject_Z (Qceiling q) + - (1) < inject_Z z)%Q by lra.
  assert (H1 : (inject_Z (z - 1) < inject_Z (Qceiling q))%Q).
  { unfold Z.sub. rewrite inject_Z_plus.
    change (inject_Z (- (1))) with (- (1))%Q. lra. }
  assert (H2 : (inject_Z (Qceiling q - 1) < inject_Z z)%Q).
  { unfold Z.sub. rewrite inject_Z_plus.
    change (inject_Z (- (1))) with (- (1))%Q. lra. }
  rewrite <- Zlt_Qlt in H1, H2. lia.
Qed.

(** X15. An image whose height lies strictly between [k] and [k + 1] page
    heights comes out on [ceil (H / 295)] pages. *)
Lemma paginate_ceiling (imgData : string) (imgHeight : Q) (k : nat) :
  (inject_Z (Z.of_nat k) * pageHeight < imgHeight)%Q ->
  (imgHeight < (inject_Z (Z.of_nat k) + 1) * pageHeight)%Q ->
  forall fuel, (k < fuel)%nat ->
    exists pdf,
      paginate fuel imgData imgHeight = Some pdf
      /\ Z.of_nat (length (pages pdf)) = Qceiling (imgHeight / pageHeight).
Proof.
  intros Hlo Hhi fuel Hfuel.
  destruct (paginate_pages k fuel imgData imgHeight) as (pdf & Hrun & Hlen);
    [lra | done | done |].
  exists pdf. split; [exact Hrun |].
  set (q := (imgHeight / pageHeight)%Q).
  assert (Hq : (imgHeight == 295 * q)%Q).
  { subst q. unfold pageHeight. by rewrite Qmult_div_r. }
  clearbody q. unfold pageHeight in *.
  rewrite (Qceiling_unique q (Z.of_nat k + 1)).
  - lia.
  - rewrite inject_Z_plus. change (inject_Z 1) with 1%Q. lra.
  - rewrite inject_Z_plus. change (inject_Z 1) with 1%Q. lra.
Qed.

(** X16. An image whose height is a whole number of page heights comes
    out on one page more than [ceil (H / 295)]. *)
Lemma paginate_whole_pages (imgData : string) (imgHeight : Q) (k : nat) :
  (imgHeight == inject_Z (Z.of_nat k) * pageHeight)%Q ->
  forall fuel, (k < fuel)%nat ->
    exists pdf,
      paginate fuel imgData imgHeight = Some pdf
      /\ Z.of_nat (length (pages pdf))
         = (Qceiling (imgHeight / pageHeight) + 1)%Z.
Proof.
  intros HH fuel Hfuel.
  destruct (paginate_pages k fuel imgData imgHeight) as (pdf & Hrun & Hlen);
    [lra | unfold pageHeight in *; lra | done |].
  exists pdf. split; [exact Hrun |].
  set (q := (imgHeight / pageHeight)%Q).
  assert (Hq : (imgHeight == 295 * q)%Q).
  { subst q. unfold pageHeight. by rewrite Qmult_div_r. }
  clearbody q. unfold pageHeight in *.
  rewrite (Qceiling_unique q (Z.of_nat k)); [lia | lra | lra].
Qed.

(** C1. An image exactly two page heights tall (590 against 295) has
    [ceil (590 / 295) = 2], yet the pagination puts it on three pages, and
    the third shows nothing: the image drawn on it ends at the top edge. *)
Theorem exact_fit_gets_blank_page (n : nat) (imgData : string) :
  Qceiling (590 / pageHeight) = 2%Z
  /\ exists pdf,
       paginate (3 + n) imgData 590 = Some pdf
       /\ length (pages pdf) = 3%nat
       /\ exists p, last (pages pdf) = Some p /\ blank p = true.
Proof.
  split; [by vm_compute |].
  eexists. split; [by vm_compute |]. split; [done |].
  eexists. split; [done | by vm_compute].
Qed.

(** The same through [downloadPDF]: a canvas of 420 by 1180 pixels scales
    to 210 by 590 and is saved as a three-page file. *)
Example download_exact_fit (wd : World) (element : HTMLDivElement) :
  exists pdf,
    downloadPDF 3 (Some element)
      (fun _ _ => inr {| canvas_width := 420; canvas_height := 1180;
                         toDataURL := inr "data:image/png;base64," |}) wd
    = (Done tt,
       {| app := app wd;
          files := files wd ++ [("留学分析报告.pdf", pdf)];
          console := console wd |})
    /\ length (pages pdf) = 3%nat.
Proof. eexists. split; [by vm_compute | done]. Qed.

(** H = 900: four pages, as the specification works out. *)
Example four_pages (imgData : string) :
  exists pdf,
    paginate 4 imgData 900 = Some pdf /\ length (pages pdf) = 4%nat.
Proof. eexists. split; [by vm_compute | done]. Qed.

(** C8. When [html2canvas] throws, [downloadPDF] ends normally having
    logged the error: no file is written, and the application state is as
    it was, so the report stays on screen. *)
Theorem capture_failure_writes_nothing (fuel : nat)
    (element : HTMLDivElement)
    (html2canvas : HTMLDivElement -> Html2CanvasOptions -> jsval + Canvas)
    (e : jsval) (wd : World) :
  html2canvas element
    {| useCORS := true; allowTaint := true;
       width := (scrollWidth element * 2)%Z;
       height := (scrollHeight element * 2)%Z |} = inl e ->
  exists wd',
    downloadPDF fuel (Some element) html2canvas wd = (Done tt, wd')
    /\ files wd' = files wd
    /\ app wd' = app wd
    /\ console wd' = console wd ++ [("PDF生成失败:", e)]
    /\ App.view (App.state (app wd')) = App.view (App.state (app wd)).
Proof.
  intros Hthrow. eexists. split.
  - unfold downloadPDF, try_catch, bind, settle. rewrite Hthrow. simpl.
    reflexivity.
  - done.
Qed.

(** A canvas that cannot be read ([toDataURL] throws on a tainted canvas)
    ends the same way. *)
Lemma tainted_canvas_writes_nothing (fuel : nat) (element : HTMLDivElement)
    (html2canvas : HTMLDivElement -> Html2CanvasOptions -> jsval + Canvas)
    (cw ch : Z) (e : jsval) (wd : World) :
  (forall el o, html2canvas el o
     = inr {| canvas_width := cw; canvas_height := ch; toDataURL := inl e |}) ->
  downloadPDF fuel (Some element) html2canvas wd
  = (Done tt,
     {| app := app wd; files := files wd;
        console := console wd ++ [("PDF生成失败:", e)] |}).
Proof.
  intros Hc. unfold downloadPDF, try_catch, bind, settle. by rewrite Hc.
Qed.

Lemma capture_failure_writes_nothing_witness :
  exists wd',
    downloadPDF 0 (Some {| scrollWidth := 1360; scrollHeight := 4200 |})
      (fun _ _ => inl (JStr "SecurityError")) (viewing Api.sample_report)
    = (Done tt, wd')
    /\ files wd' = files (viewing Api.sample_report)
    /\ app wd' = app (viewing Api.sample_report)
    /\ console wd'
       = console (viewing Api.sample_report)
         ++ [("PDF生成失败:", JStr "SecurityError")]
    /\ App.view (App.state (app wd'))
       = App.view (App.state (app (viewing Api.sample_report))).
Proof.
  apply (capture_failure_writes_nothing 0
           {| scrollWidth := 1360; scrollHeight := 4200 |}
           (fun _ _ => inl (JStr "SecurityError")) (JStr "SecurityError")
           (viewing Api.sample_report)).
  reflexivity.
Defined.

(** The report is on screen before and after the failed export. *)
Example report_still_shown :
  App.view (App.state (app (viewing Api.sample_report)))
  = App.ShowReport Api.sample_report.
Proof. done. Qed.

End ExportProps.

(** ** AnalysisReport: rendering *)

Module RenderProps.

Import Api AnalysisReport.

Section Collect.

Context {A : Type} (leaf : VNode -> list A).

Lemma collect_VElem (tag : string) (attrs : list (string * string))
    (slots : list (string * list VNode)) (children : list VNode) :
  collect leaf (VElem tag attrs slots children)
  = flat_map (fun s => flat_map (collect leaf) (snd s)) slots
    ++ flat_map (collect leaf) children.
Proof.
  simpl. f_equal.
  induction slots as [| [name ns] slots IH]; [done |].
  simpl. by rewrite IH.
Qed.

Lemma collect_El (tag : string) (attrs : list (string * string))
    (children : list VNode) :
  collect leaf (El tag attrs children) = flat_map (collect leaf) children.
Proof. unfold El. by rewrite collect_VElem. Qed.

(** Mapping a list to elements that each show [g x], whatever their
    index, shows the [g x] in the order of the list. *)
Lemma collect_imap {B : Type} (g : B -> list A) (l : list B) :
  forall f : nat -> B -> VNode,
    (forall i x, collect leaf (f i x) = g x) ->
    flat_map (collect leaf) (imap f l) = flat_map g l.
Proof.
  induction l as [| x l IH]; intros f Hf; [done |].
  simpl. rewrite Hf. f_equal. apply IH. intros i y. apply Hf.
Qed.

End Collect.

Lemma collect_VText {A : Type} (leaf : VNode -> list A) (s : string) :
  collect leaf (VText s) = leaf (VText s).
Proof. done. Qed.

Lemma collect_VRadar {A : Type} (leaf : VNode -> list A) (d : RadarData)
    (o : RadarOptions) :
  collect leaf (VRadar d o) = leaf (VRadar d o).
Proof. done. Qed.

Lemma flat_map_nil {A B : Type} (l : list A) :
  flat_map (fun _ : A => @nil B) l = [].
Proof. by induction l. Qed.

#[local] Arguments collect : simpl never.

(** Push a traversal through the elements written out in the JSX. *)
Ltac traverse :=
  repeat (rewrite ?collect_El, ?collect_VElem, ?collect_VText,
            ?collect_VRadar;
          cbn [flat_map snd app]).

Lemma radars_school_card (i : nat) (school : SchoolRecommendation) :
  radars (school_card i school) = [].
Proof. done. Qed.

Lemma radars_tier_column (icon color title : string)
    (schools : list SchoolRecommendation) :
  radars (tier_column icon color title schools) = [].
Proof.
  unfold radars, tier_column. traverse.
  rewrite (collect_imap _ (fun _ => [])); [| done].
  by rewrite flat_map_nil.
Qed.

Lemma radars_case_card (i : nat) (caseItem : CaseAnalysis) :
  radars (case_card i caseItem) = [].
Proof.
  unfold case_card, when_truthy.
  destruct (language_test_type caseItem) as [t |];
    destruct (key_experiences caseItem) as [k |];
    repeat case_match; done.
Qed.

Lemma radars_renderSchoolRecommendations (report : AnalysisReport) :
  radars (renderSchoolRecommendations report) = [].
Proof.
  unfold radars, renderSchoolRecommendations. traverse.
  fold radars. by rewrite !radars_tier_column.
Qed.

Lemma radars_renderSimilarCases (report : AnalysisReport) :
  radars (renderSimilarCases report) = [].
Proof.
  unfold radars, renderSimilarCases. traverse.
  rewrite (collect_imap _ (fun _ => [])); [by rewrite flat_map_nil |].
  apply radars_case_card.
Qed.

Lemma texts_plan_item (i : nat) (plan : ActionPlan) :
  texts (plan_item i plan) = plan_texts plan.
Proof. done. Qed.

Lemma radars_plan_item (i : nat) (plan : ActionPlan) :
  radars (plan_item i plan) = [].
Proof. done. Qed.

Lemma radars_renderBackgroundImprovement (report : AnalysisReport) :
  radars (renderBackgroundImprovement report) = [].
Proof.
  unfold radars, renderBackgroundImprovement.
  destruct (background_improvement report) as [improvement |]; [| done].
  traverse.
  rewrite (collect_imap _ (fun _ => [])); [by rewrite flat_map_nil |].
  apply radars_plan_item.
Qed.

(** C9. The report view holds one radar chart, and its data are the same
    for every report: the five fixed axes with the scores 75, 60, 45, 50
    and 80. *)
Theorem radar_independent_of_report (r1 r2 : AnalysisReport) :
  radars (render r1) = radars (render r2)
  /\ radars (render r1) = [radarData]
  /\ labels radarData
     = ["学术能力"; "语言能力"; "科研背景"; "实习背景"; "院校背景"]
  /\ map data (datasets radarData) = [[75; 60; 45; 50; 80]%Q].
Proof.
  assert (H : forall r, radars (render r) = [radarData]).
  { intros r. unfold radars, render, tabItems, tab_pane, tab_label_of,
      titled_card.
    cbn [map key tab_label children]. traverse. fold radars.
    by rewrite radars_renderSchoolRecommendations,
      radars_renderSimilarCases, radars_renderBackgroundImprovement. }
  rewrite !H. done.
Qed.

(** C7. The Background Improvement tab of a report without an improvement
    block is an info alert carrying the notice, not an empty panel. With a
    block, it is the timeline with one item per step of the plan, in the
    order of the plan, then a divider, then the card with the strategy
    summary; read top to bottom it shows the steps and then the summary. *)
Theorem background_improvement_panel (report : AnalysisReport) :
  match background_improvement report with
  | None =>
      panel "4" report
        = Some (El "Alert" [("message", unavailable); ("type", "info")] [])
      /\ unavailable <> ""
  | Some improvement =>
      exists items card,
        panel "4" report
          = Some (El "Space"
                    [("direction", "vertical");
                     ("style", "{ width: '100%' }")]
                    [El "Timeline" [] items; El "Divider" [] []; card])
        /\ length items = length (action_plan improvement)
        /\ (forall i plan, action_plan improvement !! i = Some plan ->
              items !! i = Some (plan_item i plan))
        /\ flat_map texts items
           = flat_map plan_texts (action_plan improvement)
        /\ texts card = ["总体策略建议"; strategy_summary improvement]
  end.
Proof.
  unfold panel. simpl. unfold renderBackgroundImprovement.
  destruct (background_improvement report) as [improvement |]; [| done].
  eexists _, _. split; [reflexivity |].
  split; [by rewrite length_imap |].
  split.
  - intros i plan Hi. by rewrite list_lookup_imap, Hi.
  - split; [| done]. apply collect_imap. apply texts_plan_item.
Qed.

Example sample_report_notice :
  panel "4" sample_report
  = Some (El "Alert" [("message", "背景提升建议暂时无法生成"); ("type", "info")]
            []).
Proof. done. Qed.

End RenderProps.

(** ** UserForm: further properties of the submitted Profile *)

Module UserFormMore.

Import UserForm UserFormProps.

Ltac by_computation := apply (bool_decide_unpack _); by vm_compute.

Lemma base_not_optional (k : string) :
  k ∈ base_fields ->
  (k ∉ language_fields) /\ (k ∉ gre_fields) /\ (k ∉ gmat_fields).
Proof.
  intros Hk.
  repeat (apply elem_of_cons in Hk as [-> | Hk];
          [by repeat split; by_computation |]).
  by apply elem_of_nil in Hk.
Qed.

Lemma elem_of_base_fields (k : string) :
  k ∈ base_fields <->
    k ∈ academic_fields ++ target_fields \/ k ∈ experience_fields.
Proof. unfold base_fields. rewrite !elem_of_app. tauto. Qed.

(** What the object literal holds under each name. *)
Lemma formData0_lookup (values : gmap string jsval) (k : string) :
  formData0 values !! k =
    if bool_decide (k ∈ experience_fields)
    then Some (js_or (prop values k) (JArr []))
    else if bool_decide (k ∈ academic_fields ++ target_fields)
         then Some (prop values k)
         else None.
Proof.
  destruct (decide (k ∈ base_fields)) as [Hk | Hk].
  - unfold formData0.
    repeat (apply elem_of_cons in Hk as [-> | Hk]; [by lookups |]).
    by apply elem_of_nil in Hk.
  - rewrite elem_of_base_fields in Hk.
    rewrite !bool_decide_eq_false_2 by tauto.
    apply not_elem_of_list_to_map_1. simpl. intros Hin. apply Hk.
    apply elem_of_base_fields.
    repeat (apply elem_of_cons in Hin as [-> | Hin]; [by_computation |]).
    by apply elem_of_nil in Hin.
Qed.

Lemma formData0_is_Some (values : gmap string jsval) (k : string) :
  is_Some (formData0 values !! k) <-> k ∈ base_fields.
Proof.
  rewrite formData0_lookup, elem_of_base_fields.
  repeat case_bool_decide; split; intros Hs;
    first [done | by eauto | by destruct Hs].
Qed.

(** X1. The Profile has the eleven properties of the object literal, the
    properties of the blocks that passed their test, and nothing else:
    whatever else the form values hold stays behind. *)
Theorem profile_properties (hasLanguageScore hasGRE hasGMAT : bool)
    (values : gmap string jsval) (k : string) :
  is_Some (handleSubmit hasLanguageScore hasGRE hasGMAT values !! k) <->
    k ∈ base_fields
    \/ (k ∈ language_fields
        /\ language_included hasLanguageScore values = true)
    \/ (k ∈ gre_fields /\ gre_included hasGRE values = true)
    \/ (k ∈ gmat_fields /\ gmat_included hasGMAT values = true).
Proof.
  pose proof (blocks_disjoint k) as (HL & HG & HM).
  pose proof (base_not_optional k) as HB.
  unfold language_included, gre_included, gmat_included.
  destruct (decide (k ∈ language_fields)) as [Hl | Hl];
    [| destruct (decide (k ∈ gre_fields)) as [Hg | Hg];
       [| destruct (decide (k ∈ gmat_fields)) as [Hm | Hm]]].
  - rewrite handleSubmit_language by done.
    destruct (HL Hl) as [? ?]. case_match; split.
    + intros _. right. by left.
    + by eauto.
    + by intros [? ?].
    + intros [Hb | [[_ ?] | [[? _] | [? _]]]]; try done.
      by destruct (HB Hb) as (? & _).
  - rewrite handleSubmit_gre by done.
    destruct (HG Hg) as [? ?]. case_match; split.
    + intros _. right. right. by left.
    + by eauto.
    + by intros [? ?].
    + intros [Hb | [[? _] | [[_ ?] | [? _]]]]; try done.
      by destruct (HB Hb) as (_ & ? & _).
  - rewrite handleSubmit_gmat by done.
    case_match; split.
    + intros _. right. right. by right.
    + by eauto.
    + by intros [? ?].
    + intros [Hb | [[? _] | [[? _] | [_ ?]]]]; try done.
      by destruct (HB Hb) as (_ & _ & ?).
  - rewrite handleSubmit_base, formData0_is_Some by done. split.
    + by left.
    + by intros [? | [[? _] | [[? _] | [? _]]]].
Qed.

(** X2. The eight required properties are copied from the form as they are,
    whichever rows are open: [handleSubmit] checks none of them, and no
    block writes over them. *)
Theorem required_fields_verbatim (hasLanguageScore hasGRE hasGMAT : bool)
    (values : gmap string jsval) (k : string) :
  k ∈ academic_fields ++ target_fields ->
  handleSubmit hasLanguageScore hasGRE hasGMAT values !! k
    = Some (prop values k).
Proof.
  intros Hk.
  assert (Hb : k ∈ base_fields) by (apply elem_of_base_fields; by left).
  destruct (base_not_optional k Hb) as (? & ? & ?).
  rewrite handleSubmit_base, formData0_lookup by done.
  rewrite bool_decide_eq_false_2, bool_decide_eq_true_2; [done | done |].
  repeat (apply elem_of_cons in Hk as [-> | Hk]; [by_computation |]).
  by apply elem_of_nil in Hk.
Qed.

Lemma required_fields_verbatim_witness :
  handleSubmit true true true language_submission !! "gpa"
    = Some (prop language_submission "gpa").
Proof.
  apply (required_fields_verbatim true true true language_submission "gpa").
  by_computation.
Defined.

(** X3. A block goes out whole or not at all: if one property of the language
    block (or of the GRE block) is in the Profile, so is every other. *)
Theorem block_all_or_nothing (hasLanguageScore hasGRE hasGMAT : bool)
    (values : gmap string jsval) (k k' : string) :
  (k ∈ language_fields /\ k' ∈ language_fields)
  \/ (k ∈ gre_fields /\ k' ∈ gre_fields) ->
  is_Some (handleSubmit hasLanguageScore hasGRE hasGMAT values !! k) ->
  handleSubmit hasLanguageScore hasGRE hasGMAT values !! k'
    = Some (prop values k').
Proof.
  intros [[Hk Hk'] | [Hk Hk']].
  - rewrite !handleSubmit_language by done.
    case_match; [done | by intros [? ?]].
  - rewrite !handleSubmit_gre by done.
    case_match; [done | by intros [? ?]].
Qed.

Lemma block_all_or_nothing_witness :
  handleSubmit true true false language_submission !! "language_speaking"
    = Some (prop language_submission "language_speaking").
Proof.
  apply (block_all_or_nothing true true false language_submission
           "language_total_score" "language_speaking").
  - left. split; by_computation.
  - vm_compute. by eexists.
Defined.

(** X4. The three blocks can be added in any order: each pair of the
    three [if] blocks of [handleSubmit] commutes. *)
Theorem blocks_commute (hasLanguageScore hasGRE hasGMAT : bool)
    (values formData : gmap string jsval) :
  addGRE hasGRE values (addLanguage hasLanguageScore values formData)
    = addLanguage hasLanguageScore values (addGRE hasGRE values formData)
  /\ addGMAT hasGMAT values (addGRE hasGRE values formData)
      = addGRE hasGRE values (addGMAT hasGMAT values formData)
  /\ addGMAT hasGMAT values (addLanguage hasLanguageScore values formData)
      = addLanguage hasLanguageScore values
          (addGMAT hasGMAT values formData).
Proof.
  repeat split; apply map_eq; intros k;
    pose proof (blocks_disjoint k) as (HL & HG & HM);
    destruct (decide (k ∈ language_fields)) as [Hl | Hl];
    destruct (decide (k ∈ gre_fields)) as [Hg | Hg];
    destruct (decide (k ∈ gmat_fields)) as [Hm | Hm];
    try (by destruct (HL Hl)); try (by destruct (HG Hg));
    try (by destruct (HM Hm));
    repeat first
      [ rewrite addLanguage_in by done | rewrite addLanguage_out by done
      | rewrite addGRE_in by done | rewrite addGRE_out by done
      | rewrite addGMAT_in by done | rewrite addGMAT_out by done ];
    done.
Qed.

(** X5. What sits in the inputs of a closed row has no effect on the Profile:
    two forms that differ only there submit the same Profile. *)
Theorem closed_rows_do_not_matter (hasLanguageScore hasGRE hasGMAT : bool)
    (values values' : gmap string jsval) :
  (forall k,
     prop values k = prop values' k
     \/ (k ∈ language_fields /\ hasLanguageScore = false)
     \/ (k ∈ gre_fields /\ hasGRE = false)
     \/ (k ∈ gmat_fields /\ hasGMAT = false)) ->
  handleSubmit hasLanguageScore hasGRE hasGMAT values
    = handleSubmit hasLanguageScore hasGRE hasGMAT values'.
Proof.
  intros Hsame.
  assert (HeqL : forall k, k ∈ language_fields -> hasLanguageScore = true ->
            prop values k = prop values' k).
  { intros k Hk Hon. destruct (blocks_disjoint k) as (HL & _ & _).
    destruct (HL Hk) as [? ?].
    destruct (Hsame k) as [? | [[_ ?] | [[? _] | [? _]]]];
      first [done | congruence]. }
  assert (HeqG : forall k, k ∈ gre_fields -> hasGRE = true ->
            prop values k = prop values' k).
  { intros k Hk Hon. destruct (blocks_disjoint k) as (_ & HG & _).
    destruct (HG Hk) as [? ?].
    destruct (Hsame k) as [? | [[? _] | [[_ ?] | [? _]]]];
      first [done | congruence]. }
  assert (HeqM : forall k, k ∈ gmat_fields -> hasGMAT = true ->
            prop values k = prop values' k).
  { intros k Hk Hon. destruct (blocks_disjoint k) as (_ & _ & HM).
    destruct (HM Hk) as [? ?].
    destruct (Hsame k) as [? | [[? _] | [[? _] | [_ ?]]]];
      first [done | congruence]. }
  apply map_eq. intros k.
  destruct (decide (k ∈ language_fields)) as [Hl | Hl];
    [| destruct (decide (k ∈ gre_fields)) as [Hg | Hg];
       [| destruct (decide (k ∈ gmat_fields)) as [Hm | Hm]]].
  - rewrite !handleSubmit_language by done.
    destruct hasLanguageScore; [| done].
    rewrite <- (HeqL "language_test_type"),
      <- (HeqL "language_total_score"), <- (HeqL k);
      first [done | by_computation].
  - rewrite !handleSubmit_gre by done.
    destruct hasGRE; [| done].
    rewrite <- (HeqG "gre_total"), <- (HeqG k);
      first [done | by_computation].
  - rewrite !handleSubmit_gmat by done.
    destruct hasGMAT; [| done].
    rewrite <- (HeqM "gmat_total"), <- (HeqM k);
      first [done | by_computation].
  - rewrite !handleSubmit_base, !formData0_lookup by done.
    destruct (Hsame k) as [-> | [[? _] | [[? _] | [? _]]]]; done.
Qed.

Lemma closed_rows_do_not_matter_witness :
  handleSubmit false true false language_submission
    = handleSubmit false true false gre_submission.
Proof.
  apply (closed_rows_do_not_matter false true false language_submission
           gre_submission).
  intros k. destruct (decide (k ∈ language_fields)) as [Hk | Hk].
  - right. left. by split.
  - left. unfold prop, language_submission.
    rewrite !lookup_insert_ne; [done | ..];
      intros <-; apply Hk; by_computation.
Defined.


Lemma graduation_years_sorted (fullYear : Z) (n start : nat) :
  StronglySorted Z.lt
    ((fun i : nat => (fullYear + Z.of_nat i - 5)%Z) <$> seq start n).
Proof.
  revert start. induction n as [| n IH]; intros start; simpl.
  - constructor.
  - constructor; [apply IH |].
    apply Forall_forall. intros z Hz.
    apply list_elem_of_fmap in Hz as (i & -> & Hi).
    apply elem_of_seq in Hi. lia.
Qed.

(** X7. The graduation-year Select offers ten years, in increasing order and
    without repetition: exactly those from five before the current year to
    four after it. *)
Theorem graduation_years_range (fullYear : Z) :
  length (graduation_years fullYear) = 10%nat
  /\ StronglySorted Z.lt (graduation_years fullYear)
  /\ NoDup (graduation_years fullYear)
  /\ forall z, z ∈ graduation_years fullYear <->
               (fullYear - 5 <= z <= fullYear + 4)%Z.
Proof.
  unfold graduation_years. split; [done |].
  split; [apply graduation_years_sorted |]. split.
  - apply NoDup_fmap_2_strong; [| apply NoDup_seq]. intros i j _ _ Hij. lia.
  - intros z. rewrite list_elem_of_fmap. split.
    + intros (i & -> & Hi). apply elem_of_seq in Hi. lia.
    + intros Hz. exists (Z.to_nat (z - fullYear + 5)). split; [lia |].
      apply elem_of_seq. lia.
Qed.

End UserFormMore.

(** ** App: further properties of the orchestrator *)

Module AppMore.

Import App AppProps.





(** X10. A submission from the idle form that fails leaves the component state
    exactly as it was before, whatever was thrown; at most one toast is
    added, and it is an error toast. *)
Theorem failed_submission_restores_state (w : World) (err : jsval) :
  view (state w) = ShowForm false ->
  state (handleFormSubmit (inl err) w) = state w
  /\ (toasts (handleFormSubmit (inl err) w) = toasts w
      \/ exists m, toasts (handleFormSubmit (inl err) w)
                   = toasts w ++ [error m]).
Proof.
  intros Hview. destruct w as [[s r l] ts]. unfold view in Hview.
  simpl in Hview. destruct s; [| by destruct r].
  injection Hview as ->.
  unfold handleFormSubmit, submit_end. simpl.
  destruct (errorMessage err) as [m |]; simpl.
  - split; [done |]. right. by eexists.
  - split; [done |]. by left.
Qed.

Lemma failed_submission_restores_state_witness :
  state (handleFormSubmit (inl timeout_error) initial) = state initial
  /\ (toasts (handleFormSubmit (inl timeout_error) initial) = toasts initial
      \/ exists m, toasts (handleFormSubmit (inl timeout_error) initial)
                   = toasts initial ++ [error m]).
Proof.
  apply (failed_submission_restores_state initial timeout_error).
  reflexivity.
Defined.

(** X11. The [catch] block throws exactly when the value caught is [undefined]
    or [null]. Then no toast is shown, and the spinner is switched off all
    the same. *)
Theorem catch_throws_only_on_nullish (err : jsval) :
  (errorMessage err = None <-> nullish err = true)
  /\ forall w,
       errorMessage err = None ->
       toasts (handleFormSubmit (inl err) w) = toasts w
       /\ loading (state (handleFormSubmit (inl err) w)) = false.
Proof.
  split.
  - split.
    + intros Hnone. destruct (nullish err) eqn:Hn; [done |].
      by rewrite errorMessage_spec in Hnone.
    + by destruct err.
  - intros w Hnone. unfold handleFormSubmit, submit_end.
    by rewrite Hnone.
Qed.

(** X12. Leaving a report lands on the very state the application started
    in. *)
Theorem back_restores_initial_state (w : World) (r : Api.AnalysisReport) :
  reachable w ->
  view (state w) = ShowReport r ->
  state (handleBackToForm w) = state initial.
Proof.
  intros Hw Hview. pose proof (reachable_consistent w Hw) as Hc.
  destruct w as [[s r' l] ts]. unfold consistent, view in *. simpl in *.
  destruct s; [done |]. by destruct Hc as [_ ->].
Qed.

Lemma back_restores_initial_state_witness :
  state (handleBackToForm
           (handleFormSubmit (inr Api.sample_report) initial))
  = state initial.
Proof.
  apply (back_restores_initial_state
           (handleFormSubmit (inr Api.sample_report) initial)
           Api.sample_report).
  - eapply reach_step;
      [eapply reach_step; [apply reach_init | by apply step_submit]
      | by apply step_settle].
  - reflexivity.
Defined.

(** X13. When the [detail] of the response and the [message] of the error are
    each a string or missing, the toast shows a string, and not the empty
    one. *)
Theorem error_toast_is_text (err : jsval) :
  nullish err = false ->
  (truthy (get_opt (get_opt (get_opt err "response") "data") "detail")
     = true ->
   is_string (get_opt (get_opt (get_opt err "response") "data") "detail")
     = true) ->
  (truthy (get_opt err "message") = true ->
   is_string (get_opt err "message") = true) ->
  exists s, errorMessage err = Some (JStr s) /\ s <> "".
Proof.
  intros Hn Hd Hm. rewrite errorMessage_spec by done. simpl.
  destruct (truthy (get_opt (get_opt (get_opt err "response") "data")
                      "detail")) eqn:Ed.
  - specialize (Hd eq_refl).
    destruct (get_opt (get_opt (get_opt err "response") "data") "detail")
      as [| | | | | s | |]; try done.
    exists s. split; [done |]. by intros ->.
  - destruct (truthy (get_opt err "message")) eqn:Em.
    + specialize (Hm eq_refl).
      destruct (get_opt err "message") as [| | | | | s | |]; try done.
      exists s. split; [done |]. by intros ->.
    + by exists fallback.
Qed.

Lemma error_toast_is_text_witness :
  exists s, errorMessage timeout_error = Some (JStr s) /\ s <> "".
Proof.
  apply (error_toast_is_text timeout_error); by vm_compute.
Defined.

(** A [detail] that is not a string is passed on as it is: a validation
    answer whose [detail] is a list reaches the toast as a list. *)
Example list_detail_not_text :
  errorMessage
    (JObj (list_to_map
       [ ("message", JStr "Request failed with status code 422");
         ("response", JObj (list_to_map
            [("data", JObj (list_to_map
               [("detail", JArr [JStr "field required"])]))])) ]))
  = Some (JArr [JStr "field required"]).
Proof. by vm_compute. Qed.

End AppMore.

(** ** AnalysisReport: further properties of the export *)

Module ExportMore.

Import AnalysisReport ExportProps.

(** X14. The pagination always ends, and puts an image of height
    [H >= 0] on [floor (H / 295) + 1] pages. *)
Theorem page_count_floor (fuel : nat) (imgData : string) (imgHeight : Q) :
  (0 <= imgHeight)%Q ->
  (Z.to_nat (Qfloor (imgHeight / pageHeight)) < fuel)%nat ->
  exists pdf,
    paginate fuel imgData imgHeight = Some pdf
    /\ Z.of_nat (length (pages pdf))
       = (Qfloor (imgHeight / pageHeight) + 1)%Z.
Proof. intros H0 Hfuel. by apply paginate_page_count. Qed.

Lemma page_count_floor_witness :
  exists pdf,
    paginate 4 "data" 900 = Some pdf
    /\ Z.of_nat (length (pages pdf)) = (Qfloor (900 / pageHeight) + 1)%Z.
Proof.
  apply (page_count_floor 4 "data" 900).
  - by vm_compute.
  - vm_compute. lia.
Defined.

Lemma paginate_ceiling_witness :
  exists pdf,
    paginate 4 "data" 900 = Some pdf
    /\ Z.of_nat (length (pages pdf)) = Qceiling (900 / pageHeight).
Proof.
  apply (paginate_ceiling "data" 900 3).
  - by vm_compute.
  - by vm_compute.
  - lia.
Defined.

Lemma paginate_whole_pages_witness :
  exists pdf,
    paginate 3 "data" 590 = Some pdf
    /\ Z.of_nat (length (pages pdf)) = (Qceiling (590 / pageHeight) + 1)%Z.
Proof.
  apply (paginate_whole_pages "data" 590 2).
  - by vm_compute.
  - lia.
Defined.

(** What the loop adds: one page per turn, each with the one image, drawn
    one page height higher than on the page before. *)
Lemma while_heightLeft_layout (fuel : nat) :
  forall (imgData : string) (imgHeight heightLeft : Q) (pdf pdf' : jsPDF),
    while_heightLeft fuel imgData imgHeight heightLeft pdf = Some pdf' ->
    exists tops : list Q,
      pages pdf'
        = pages pdf ++ ((fun t => [slice imgData imgHeight t]) <$> tops)
      /\ forall (i : nat) (t : Q), tops !! i = Some t ->
           (t == heightLeft - inject_Z (Z.of_nat i) * pageHeight
                 - imgHeight)%Q.
Proof.
  induction fuel as [| fuel IH]; intros imgData imgHeight heightLeft pdf pdf'
    Hrun; [done |].
  simpl in Hrun. destruct (Qle_bool 0 heightLeft).
  - apply IH in Hrun as (tops & Hpages & Htops).
    rewrite pages_addImage_addPage in Hpages.
    exists ((heightLeft - imgHeight)%Q :: tops). split.
    + by rewrite Hpages, <- app_assoc.
    + intros [| i] t Hi.
      * injection Hi as <-. change (inject_Z (Z.of_nat 0)) with 0%Q. lra.
      * simpl in Hi. rewrite (Htops i t Hi), inject_succ.
        unfold pageHeight. lra.
  - injection Hrun as <-. exists []. split; [by rewrite app_nil_r | done].
Qed.

Lemma paginate_layout (fuel : nat) (imgData : string) (imgHeight : Q)
    (pdf : jsPDF) :
  paginate fuel imgData imgHeight = Some pdf ->
  forall (j : nat) (page : list Image),
    pages pdf !! j = Some page ->
    exists top,
      page = [slice imgData imgHeight top]
      /\ (top == - (inject_Z (Z.of_nat j) * pageHeight))%Q.
Proof.
  unfold paginate. intros Hrun j page Hj.
  apply while_heightLeft_layout in Hrun as (tops & Hpages & Htops).
  rewrite Hpages in Hj. simpl in Hj. destruct j as [| j].
  - injection Hj as <-. exists 0%Q. split; [done |].
    change (inject_Z (Z.of_nat 0)) with 0%Q. lra.
  - simpl in Hj. rewrite list_lookup_fmap in Hj.
    destruct (tops !! j) as [t |] eqn:Ht; [| done].
    injection Hj as <-. exists t. split; [done |].
    rewrite (Htops j t Ht), inject_succ. unfold pageHeight. lra.
Qed.

(** X17. Page [j] of the document (counting from 0) carries the whole image
    once, 210 wide, shifted up by [j] page heights, so it shows the part of
    the image from [295 j] down. *)
Theorem page_layout (fuel : nat) (imgData : string) (imgHeight : Q) :
  (0 <= imgHeight)%Q ->
  (Z.to_nat (Qfloor (imgHeight / pageHeight)) < fuel)%nat ->
  exists pdf,
    paginate fuel imgData imgHeight = Some pdf
    /\ forall (j : nat) (page : list Image),
         pages pdf !! j = Some page ->
         exists top,
           page = [ {| imageData := imgData; format := "PNG"; x := 0;
                       y := top; w := 210; h := imgHeight |} ]
           /\ (top == - (inject_Z (Z.of_nat j) * 295))%Q.
Proof.
  intros H0 Hfuel.
  destruct (paginate_page_count imgData imgHeight H0 fuel Hfuel)
    as (pdf & Hrun & _).
  exists pdf. split; [done |]. apply (paginate_layout _ _ _ _ Hrun).
Qed.

Lemma page_layout_witness :
  exists pdf,
    paginate 4 "data" 900 = Some pdf
    /\ forall (j : nat) (page : list Image),
         pages pdf !! j = Some page ->
         exists top,
           page = [ {| imageData := "data"; format := "PNG"; x := 0;
                       y := top; w := 210; h := 900 |} ]
           /\ (top == - (inject_Z (Z.of_nat j) * 295))%Q.
Proof.
  apply (page_layout 4 "data" 900).
  - by vm_compute.
  - vm_compute. lia.
Defined.

Lemma blank_slice (imgData : string) (imgHeight top : Q) :
  blank [slice imgData imgHeight top] = true <-> (top + imgHeight <= 0)%Q.
Proof.
  unfold blank. simpl. rewrite andb_true_r. apply Qle_bool_iff.
Qed.

(** X18. A page shows nothing exactly when the image ends at its top edge,
    that is when the height of the image is [j] whole page heights; such a
    page is the last one. So at most one page of a document is blank, the
    last, and only when the image fits the pages before it exactly. *)
Theorem only_last_page_blank (fuel : nat) (imgData : string)
    (imgHeight : Q) :
  (0 <= imgHeight)%Q ->
  (Z.to_nat (Qfloor (imgHeight / pageHeight)) < fuel)%nat ->
  exists pdf,
    paginate fuel imgData imgHeight = Some pdf
    /\ forall (j : nat) (page : list Image),
         pages pdf !! j = Some page ->
         (blank page = true <->
            (imgHeight == inject_Z (Z.of_nat j) * pageHeight)%Q)
         /\ (blank page = true -> S j = length (pages pdf)).
Proof.
  intros H0 Hfuel.
  destruct (paginate_page_count imgData imgHeight H0 fuel Hfuel)
    as (pdf & Hrun & Hlen).
  exists pdf. split; [done |]. intros j page Hj.
  destruct (paginate_layout _ _ _ _ Hrun j page Hj) as (top & -> & Htop).
  rewrite blank_slice, Htop.
  set (q := (imgHeight / pageHeight)%Q) in *.
  assert (Hq : (imgHeight == 295 * q)%Q).
  { subst q. unfold pageHeight. by rewrite Qmult_div_r. }
  clearbody q. unfold pageHeight in *.
  pose proof (Qfloor_le q) as Hfl.
  assert (Hjlen : (Z.of_nat j < Qfloor q + 1)%Z).
  { apply lookup_lt_Some in Hj. lia. }
  assert (Hjq : (inject_Z (Z.of_nat j) <= inject_Z (Qfloor q))%Q).
  { rewrite <- Zle_Qle. lia. }
  split.
  - split; intros Hb; lra.
  - intros Hb.
    assert (Hle : (q <= inject_Z (Z.of_nat j))%Q) by lra.
    apply Qfloor_resp_le in Hle. rewrite Qfloor_Z in Hle. lia.
Qed.

Lemma only_last_page_blank_witness :
  exists pdf,
    paginate 3 "data" 590 = Some pdf
    /\ forall (j : nat) (page : list Image),
         pages pdf !! j = Some page ->
         (blank page = true <->
            (590 == inject_Z (Z.of_nat j) * pageHeight)%Q)
         /\ (blank page = true -> S j = length (pages pdf)).
Proof.
  apply (only_last_page_blank 3 "data" 590).
  - by vm_compute.
  - vm_compute. lia.
Defined.

(** X19. [downloadPDF] never lets an exception out, and never touches the
    application state. Of the world it changes one thing at most: it either
    writes one file, under the fixed name, or logs one error. *)
Theorem downloadPDF_contained (fuel : nat) (current : option HTMLDivElement)
    (html2canvas : HTMLDivElement -> Html2CanvasOptions -> jsval + Canvas)
    (wd : World) :
  exists outcome wd',
    downloadPDF fuel current html2canvas wd = (outcome, wd')
    /\ (forall e, outcome <> Thrown e)
    /\ app wd' = app wd
    /\ ((files wd' = files wd /\ console wd' = console wd)
        \/ (exists pdf,
              files wd' = files wd ++ [("留学分析报告.pdf", pdf)]
              /\ console wd' = console wd /\ outcome = Done tt)
        \/ (exists e,
              console wd' = console wd ++ [("PDF生成失败:", e)]
              /\ files wd' = files wd /\ outcome = Done tt)).
Proof.
  unfold downloadPDF. destruct current as [element |].
  - unfold try_catch, bind, settle, terminating, save, console_error.
    destruct (html2canvas element _) as [e | canvas]; simpl.
    + eexists _, _. split; [done |]. repeat split; [done |].
      right. right. by eexists.
    + destruct (toDataURL canvas) as [e | imgData]; simpl.
      * eexists _, _. split; [done |]. repeat split; [done |].
        right. right. by eexists.
      * destruct (paginate fuel imgData _) as [pdf |]; simpl.
        -- eexists _, _. split; [done |]. repeat split; [done |].
           right. left. by eexists.
        -- eexists _, _. split; [done |]. repeat split; [done |].
           by left.
  - eexists _, _. split; [done |]. repeat split; [done |]. by left.
Qed.

Lemma Qfloor_scaled (height width : Z) :
  (0 < width)%Z ->
  Qfloor (inject_Z height * imgWidth / inject_Z width / pageHeight)
  = ((height * 210) `div` (width * 295))%Z.
Proof.
  intros Hw. destruct width as [| p | p]; [lia | | lia].
  assert (E : (inject_Z height * imgWidth / inject_Z (Z.pos p) / pageHeight
               == (height * 210) # (p * 295))%Q).
  { rewrite (Qmake_Qdiv (height * 210) (p * 295)).
    rewrite inject_Z_mult, Pos2Z.inj_mul, inject_Z_mult.
    unfold imgWidth, pageHeight.
    change (inject_Z 210) with 210%Q. change (inject_Z 295) with 295%Q.
    field. change 0%Q with (inject_Z 0). rewrite inject_Z_injective. lia. }
  rewrite E. reflexivity.
Qed.

Lemma scaled_height_nonneg (height width : Z) :
  (0 < width)%Z -> (0 <= height)%Z ->
  (0 <= inject_Z height * imgWidth / inject_Z width)%Q.
Proof.
  intros Hw Hh. apply Qle_shift_div_l.
  - change 0%Q with (inject_Z 0). by rewrite <- Zlt_Qlt.
  - rewrite Qmult_0_l. apply Qmult_le_0_compat; [| done].
    change 0%Q with (inject_Z 0). by rewrite <- Zle_Qle.
Qed.

(** X20. When the capture succeeds, on a canvas [width] by [height] pixels
    that can be read, [downloadPDF] writes one file, of
    [(210 height) div (295 width) + 1] pages, and logs nothing. *)
Theorem downloadPDF_saves (fuel : nat) (element : HTMLDivElement)
    (html2canvas : HTMLDivElement -> Html2CanvasOptions -> jsval + Canvas)
    (canvas : Canvas) (imgData : string) (wd : World) :
  html2canvas element
    {| useCORS := true; allowTaint := true;
       width := (scrollWidth element * 2)%Z;
       height := (scrollHeight element * 2)%Z |} = inr canvas ->
  toDataURL canvas = inr imgData ->
  well_sized canvas ->
  (Z.to_nat ((canvas_height canvas * 210) `div` (canvas_width canvas * 295))
   < fuel)%nat ->
  exists pdf,
    downloadPDF fuel (Some element) html2canvas wd
    = (Done tt,
       {| app := app wd;
          files := files wd ++ [("留学分析报告.pdf", pdf)];
          console := console wd |})
    /\ Z.of_nat (length (pages pdf))
       = ((canvas_height canvas * 210) `div` (canvas_width canvas * 295)
          + 1)%Z.
Proof.
  intros Hcap Hdata [Hw Hh] Hfuel.
  rewrite <- (Qfloor_scaled _ _ Hw) in Hfuel |- *.
  destruct (paginate_page_count imgData _
              (scaled_height_nonneg _ _ Hw Hh) fuel Hfuel)
    as (pdf & Hrun & Hlen).
  exists pdf. split; [| done].
  unfold downloadPDF, try_catch, bind, settle, terminating, save.
  rewrite Hcap. simpl. rewrite Hdata. simpl. by rewrite Hrun.
Qed.

Lemma downloadPDF_saves_witness :
  exists pdf,
    downloadPDF 4 (Some {| scrollWidth := 680; scrollHeight := 2100 |})
      (fun _ o => inr {| canvas_width := width o;
                         canvas_height := height o;
                         toDataURL := inr "data:image/png;base64," |})
      (viewing Api.sample_report)
    = (Done tt,
       {| app := app (viewing Api.sample_report);
          files := files (viewing Api.sample_report)
                   ++ [("留学分析报告.pdf", pdf)];
          console := console (viewing Api.sample_report) |})
    /\ Z.of_nat (length (pages pdf)) = ((4200 * 210) `div` (1360 * 295) + 1)%Z.
Proof.
  apply (downloadPDF_saves 4 {| scrollWidth := 680; scrollHeight := 2100 |}
           (fun _ o => inr {| canvas_width := width o;
                              canvas_height := height o;
                              toDataURL := inr "data:image/png;base64," |})
           {| canvas_width := 1360; canvas_height := 4200;
              toDataURL := inr "data:image/png;base64," |}
           "data:image/png;base64," (viewing Api.sample_report)).
  - reflexivity.
  - reflexivity.
  - split; by vm_compute.
  - vm_compute. lia.
Defined.

End ExportMore.

(** ** AnalysisReport: further properties of the rendering *)

Module RenderMore.

Import Api AnalysisReport RenderProps.

#[local] Arguments collect : simpl never.

(** As [collect_imap], for elements whose content depends on the index. *)
Lemma collect_imap_index {A B : Type} (leaf : VNode -> list A)
    (g : nat -> B -> list A) (l : list B) :
  forall f : nat -> B -> VNode,
    (forall i x, collect leaf (f i x) = g i x) ->
    flat_map (collect leaf) (imap f l) = concat (imap g l).
Proof.
  revert g. induction l as [| b l IH]; intros g f Hf; [done |].
  simpl. rewrite Hf. f_equal. apply IH. intros i y. apply Hf.
Qed.

(** Bring nested concatenations to one list. *)
Ltac flatten :=
  repeat (progress (rewrite ?app_nil_r, <- ?app_assoc; cbn [app])).

Lemma texts_case_card (index : nat) (caseItem : CaseAnalysis) :
  texts (case_card index caseItem) = case_texts index caseItem.
Proof.
  unfold case_card, case_texts, when_truthy.
  destruct (language_test_type caseItem) as [t |];
    destruct (key_experiences caseItem) as [k |];
    repeat case_match; done.
Qed.

Lemma texts_school_card (i : nat) (school : SchoolRecommendation) :
  texts (school_card i school) = school_texts school.
Proof. done. Qed.

Lemma texts_tier_column (icon color title : string)
    (schools : list SchoolRecommendation) :
  texts (tier_column icon color title schools)
  = title :: flat_map school_texts schools.
Proof.
  unfold texts, tier_column. traverse.
  rewrite (collect_imap _ school_texts); [| apply texts_school_card].
  by flatten.
Qed.

Lemma texts_renderSchoolRecommendations (report : AnalysisReport) :
  texts (renderSchoolRecommendations report)
  = "冲刺院校 (Reach)"
      :: flat_map school_texts (reach (school_recommendations report))
    ++ "匹配院校 (Target)"
      :: flat_map school_texts (target (school_recommendations report))
    ++ "保底院校 (Safety)"
      :: flat_map school_texts (safety (school_recommendations report)).
Proof.
  unfold texts, renderSchoolRecommendations. traverse. fold texts.
  rewrite !texts_tier_column. by flatten.
Qed.

Lemma texts_renderSimilarCases (report : AnalysisReport) :
  texts (renderSimilarCases report)
  = concat (imap case_texts (similar_cases report)).
Proof.
  unfold texts, renderSimilarCases. traverse. flatten.
  apply collect_imap_index. apply texts_case_card.
Qed.

Lemma texts_renderBackgroundImprovement (report : AnalysisReport) :
  texts (renderBackgroundImprovement report)
  = match background_improvement report with
    | Some improvement =>
        flat_map plan_texts (action_plan improvement)
        ++ ["总体策略建议"; strategy_summary improvement]
    | None => []
    end.
Proof.
  unfold texts, renderBackgroundImprovement.
  destruct (background_improvement report) as [improvement |]; [| done].
  traverse. rewrite (collect_imap _ plan_texts); [| apply texts_plan_item].
  by flatten.
Qed.

(** All the text of the report view, top to bottom. *)
Lemma texts_render (report : AnalysisReport) :
  texts (render report)
  = [ "留学定位与选校规划分析报告"; "下载PDF报告"; "返回修改";
      "竞争力评估"; "综合竞争力雷达图";
      "核心优势"; strengths (competitiveness report);
      "主要短板"; weaknesses (competitiveness report);
      "综合评价"; summary (competitiveness report);
      "选校建议" ]
    ++ texts (renderSchoolRecommendations report)
    ++ [ "案例透视"; case_insights (school_recommendations report);
         "相似案例" ]
    ++ texts (renderSimilarCases report)
    ++ [ "背景提升" ]
    ++ texts (renderBackgroundImprovement report).
Proof.
  unfold texts at 1.
  unfold render, tabItems, tab_pane, tab_label_of, titled_card.
  cbn [map key tab_label children]. traverse. fold texts.
  by flatten.
Qed.

Lemma elem_of_flat_map_2 {A B : Type} (f : A -> list B) (l : list A)
    (a : A) (b : B) :
  a ∈ l -> b ∈ f a -> b ∈ flat_map f l.
Proof.
  rewrite !list_elem_of_In, in_flat_map. by exists a.
Qed.

Lemma elem_of_concat_imap {A B : Type} (g : nat -> A -> list B)
    (l : list A) (i : nat) (a : A) (b : B) :
  l !! i = Some a -> b ∈ g i a -> b ∈ concat (imap g l).
Proof.
  intros Hi Hb. rewrite list_elem_of_In, in_concat.
  exists (g i a). split; [| by apply list_elem_of_In].
  apply list_elem_of_In, list_elem_of_lookup. exists i.
  by rewrite list_lookup_imap, Hi.
Qed.

(** Find an element in a list written with [::] and [++]. *)
Ltac find_shown :=
  lazymatch goal with
  | |- _ ∈ _ :: _ =>
      first [ apply list_elem_of_here
            | apply list_elem_of_further; find_shown ]
  | |- _ ∈ _ ++ _ =>
      apply elem_of_app; first [ left; find_shown | right; find_shown ]
  | |- _ => assumption
  end.

(** X23. Everything the report says is on screen: the three texts of the
    competitiveness analysis, the case insights, every school of every
    tier with its program and reason, every case with all the text of its
    card, and, when there is an improvement block, every step of the plan
    and the strategy summary. *)
Theorem report_fully_shown (report : AnalysisReport) :
  let shown := texts (render report) in
  strengths (competitiveness report) ∈ shown
  /\ weaknesses (competitiveness report) ∈ shown
  /\ summary (competitiveness report) ∈ shown
  /\ case_insights (school_recommendations report) ∈ shown
  /\ (forall school s,
        school ∈ reach (school_recommendations report)
                 ++ target (school_recommendations report)
                 ++ safety (school_recommendations report) ->
        s ∈ school_texts school -> s ∈ shown)
  /\ (forall i caseItem s,
        similar_cases report !! i = Some caseItem ->
        s ∈ case_texts i caseItem -> s ∈ shown)
  /\ (forall improvement,
        background_improvement report = Some improvement ->
        strategy_summary improvement ∈ shown
        /\ forall plan s,
             plan ∈ action_plan improvement ->
             s ∈ plan_texts plan -> s ∈ shown).
Proof.
  intros shown. subst shown.
  rewrite texts_render, texts_renderSchoolRecommendations,
    texts_renderSimilarCases,
    texts_renderBackgroundImprovement.
  do 4 (split; [find_shown |]). split; [| split].
  - intros school s Hschool Hs.
    rewrite !elem_of_app in Hschool.
    destruct Hschool as [H | [H | H]];
      pose proof (elem_of_flat_map_2 school_texts _ _ _ H Hs) as Hin;
      find_shown.
  - intros i caseItem s Hi Hs.
    pose proof (elem_of_concat_imap case_texts _ _ _ _ Hi Hs) as Hin.
    find_shown.
  - intros improvement ->. split; [find_shown |].
    intros plan s Hplan Hs.
    pose proof (elem_of_flat_map_2 plan_texts _ _ _ Hplan Hs) as Hin.
    find_shown.
Qed.

(** X21. A case card shows, top to bottom: its numbered title and the
    program, the GPA and language score, the line with the test type only
    when the case has a test type that is not empty, the undergraduate
    background, the key experiences only when there are some, and under
    the heading of the comparison its five parts. *)
Theorem case_card_texts (index : nat) (caseItem : CaseAnalysis) :
  texts (case_card index caseItem)
  = [ "案例 " +:+ pretty (index + 1) +:+ ": "
        +:+ admitted_university caseItem;
      admitted_program caseItem;
      "基本信息："; "GPA: "; gpa caseItem; " | 语言: ";
      language_score caseItem ]
    ++ match language_test_type caseItem with
       | Some t => if String.eqb t "" then [] else ["语言考试类型: "; t]
       | None => []
       end
    ++ [ undergraduate_info caseItem ]
    ++ match key_experiences caseItem with
       | Some k => if String.eqb k "" then [] else ["主要经历："; k]
       | None => []
       end
    ++ [ "详细对比分析";
         "GPA对比："; cmp_gpa (comparison caseItem);
         "院校对比："; cmp_university (comparison caseItem);
         "经历对比："; cmp_experience (comparison caseItem);
         "成功因素："; success_factors caseItem;
         "可借鉴经验："; takeaways caseItem ].
Proof. apply texts_case_card. Qed.

(** X22. The school panel shows the three tiers one after the other, each
    under its own heading, with every school of the tier in the order of
    the report: no school is left out, moved to another tier or
    reordered. *)
Theorem school_tiers_in_order (report : AnalysisReport) :
  texts (renderSchoolRecommendations report)
  = "冲刺院校 (Reach)"
      :: flat_map school_texts (reach (school_recommendations report))
    ++ "匹配院校 (Target)"
      :: flat_map school_texts (target (school_recommendations report))
    ++ "保底院校 (Safety)"
      :: flat_map school_texts (safety (school_recommendations report)).
Proof. apply texts_renderSchoolRecommendations. Qed.

End RenderMore.

(** ** services/api: the requests *)

Module ApiMore.

Import Api.

(** X24. Every case has a URL of its own: two ids give the same URL only when
    they are the same id, and no case URL is the URL of another request of
    the service. *)
Theorem case_urls_distinct (a b : Z) :
  (url (getCaseDetails a) = url (getCaseDetails b) <-> a = b)
  /\ url (getCaseDetails a)
     ∉ [ url healthCheck; url getStats; url getUniversities; url getMajors;
         url (analyzeUserBackground ∅); url refreshData ].
Proof.
  split.
  - split; [| by intros ->].
    simpl. intros H. simplify_eq. by apply (inj pretty).
  - simpl. intros H.
    repeat (apply elem_of_cons in H as [H | H]; [by simplify_eq |]).
    by apply elem_of_nil in H.
Qed.

End ApiMore.
